(** * Prompt-to-scene contract of the AR 3D model generator

    A shallow embedding of [src/services/geminiService.ts] (the scene
    generator), of the [GeneratedObject] component (the scene renderer) and
    of [handleGenerate] in [src/App.tsx], together with the part of the
    JavaScript runtime these three read: strings, numbers, truthiness,
    property reads, [JSON.parse] and [String.prototype.trim]. *)

From Stdlib Require Import ZArith NArith List String Ascii Bool Lia.
From Stdlib Require Import SpecFloat DecimalString.
Import ListNotations.

Set Warnings "-register-all".
Local Open Scope Z_scope.

(** ** The JavaScript values the program handles *)

Module JS.

(** A string is a sequence of UTF-16 code units. *)
Definition code_unit := N.
Definition jsstring := list code_unit.

Definition str (s : string) : jsstring :=
  List.map N_of_ascii (list_ascii_of_string s).

Fixpoint jsstring_eqb (a b : jsstring) : bool :=
  match a, b with
  | [], [] => true
  | x :: a', y :: b' => N.eqb x y && jsstring_eqb a' b'
  | _, _ => false
  end.

(** A number is an IEEE 754 binary64 value. *)
Definition number := spec_float.

Definition prec : Z := 53.
Definition emax : Z := 1024.

Definition pow10 (k : Z) : Z := 10 ^ k.

(** The binary64 value nearest to [m * 10^e] (ties to even), for [0 < m].
    A negative exponent is divided out with 64 extra bits and a sticky bit,
    so that the single rounding of [binary_round] is the rounding of the
    exact quotient.  The two guards only cut off exponents whose result is
    already decided: above [10^400] everything overflows, and below
    [10^-400] everything rounds to zero. *)
Definition round_decimal (neg : bool) (m : positive) (e : Z) : number :=
  if 400 <? e then S754_infinity neg
  else if 0 <=? e then binary_round prec emax neg (Z.to_pos (Zpos m * pow10 e)) 0
  else if e + Z.log2 (Zpos m) / 3 + 2 <? -400 then S754_zero neg
  else
    let den := pow10 (- e) in
    let s := 64 + Z.log2 den + 1 in
    let num := Zpos m * 2 ^ s in
    let q := num / den in
    let sticky := if (num mod den) =? 0 then 0 else 1 in
    binary_round prec emax neg (Z.to_pos (2 * q + sticky)) (- s - 1).

Definition number_of_decimal (neg : bool) (m : Z) (e : Z) : number :=
  match m with
  | Zpos p => round_decimal neg p e
  | _ => S754_zero neg
  end.

(** Structural equality of two numbers (the same datum; not IEEE [==]). *)
Definition number_same (x y : number) : bool :=
  match x, y with
  | S754_zero a, S754_zero b => Bool.eqb a b
  | S754_infinity a, S754_infinity b => Bool.eqb a b
  | S754_nan, S754_nan => true
  | S754_finite a m e, S754_finite b m' e' =>
      Bool.eqb a b && Pos.eqb m m' && Z.eqb e e'
  | _, _ => false
  end.

(** *** Number::toString (radix 10)

    For a finite positive [v = m * 2^e] the digits are the integers
    [n], [k], [s] of the language definition: [k] as small as possible with
    [10^(k-1) <= s < 10^k] and [s * 10^(n-k)] rounding to [v], and among
    several such [s] the one nearest to [v] (the even one on a tie). *)

(** [v = m * 2^e] and [s * 10^x] over their common denominator:
    [v] becomes [scaled_value m e x] and [s * 10^x] becomes
    [s * scaled_unit e x]. *)
Definition scaled_value (m : positive) (e x : Z) : Z :=
  Zpos m * 2 ^ Z.max e 0 * 10 ^ Z.max (- x) 0.

Definition scaled_unit (e x : Z) : Z :=
  2 ^ Z.max (- e) 0 * 10 ^ Z.max x 0.

(** The least [n] from [n0] upwards with [v < 10^n]. *)
Fixpoint decimal_exponent (fuel : nat) (m : positive) (e n : Z) : Z :=
  if scaled_value m e n <? scaled_unit e n then n
  else match fuel with
       | O => n
       | S fuel' => decimal_exponent fuel' m e (n + 1)
       end.

Definition rounds_to (m : positive) (e : Z) (s x : Z) : bool :=
  number_same (number_of_decimal false s x) (S754_finite false m e).

(** The [k]-digit candidate for [v], when there is one. *)
Definition digits_at (m : positive) (e n k : Z) : option Z :=
  let x := n - k in
  let a := scaled_value m e x in
  let u := scaled_unit e x in
  let lo := a / u in
  let hi := lo + 1 in
  let ok_lo := rounds_to m e lo x in
  let ok_hi := rounds_to m e hi x in
  if a mod u =? 0 then Some lo
  else if ok_lo && ok_hi then
    match (a - lo * u) ?= (hi * u - a) with
    | Lt => Some lo
    | Gt => Some hi
    | Eq => Some (if Z.even lo then lo else hi)
    end
  else if ok_lo then Some lo
  else if ok_hi then Some hi
  else None.

Fixpoint shortest_digits (fuel : nat) (m : positive) (e n k : Z) : Z * Z :=
  match digits_at m e n k with
  | Some s => (s, k)
  | None =>
      match fuel with
      | O => (scaled_value m e (n - k) / scaled_unit e (n - k), k)
      | S fuel' => shortest_digits fuel' m e n (k + 1)
      end
  end.

Definition decimal_string (z : Z) : string :=
  NilZero.string_of_uint (N.to_uint (Z.to_N z)).

Fixpoint zeros (n : nat) : string :=
  match n with
  | O => EmptyString
  | S n' => String "0"%char (zeros n')
  end.

Definition string_take (n : Z) (s : string) : string :=
  substring 0 (Z.to_nat n) s.

Definition string_drop (n : Z) (s : string) : string :=
  substring (Z.to_nat n) (String.length s - Z.to_nat n)%nat s.

Definition exponent_part (n : Z) : string :=
  let sign := if 0 <? n - 1 then "+"%string else "-"%string in
  ("e" ++ sign ++ decimal_string (Z.abs (n - 1)))%string.

Definition positive_to_string (m : positive) (e : Z) : string :=
  let n0 := decimal_exponent 640 m e (-323) in
  let '(s0, k0) := shortest_digits 16 m e n0 1 in
  (* a candidate that rounded up to [10^k] is the one-digit [1] one decade up *)
  let '(s, k, n) := if s0 =? pow10 k0 then (1, 1, n0 + 1) else (s0, k0, n0) in
  let digits := decimal_string s in
  if (k <=? n) && (n <=? 21) then
    (digits ++ zeros (Z.to_nat (n - k)))%string
  else if (0 <? n) && (n <=? 21) then
    (string_take n digits ++ "." ++ string_drop n digits)%string
  else if (-6 <? n) && (n <=? 0) then
    ("0." ++ zeros (Z.to_nat (- n)) ++ digits)%string
  else if k =? 1 then
    (digits ++ exponent_part n)%string
  else
    (string_take 1 digits ++ "." ++ string_drop 1 digits ++ exponent_part n)%string.

Definition number_to_string (x : number) : jsstring :=
  match x with
  | S754_nan => str "NaN"
  | S754_zero _ => str "0"
  | S754_infinity false => str "Infinity"
  | S754_infinity true => str "-Infinity"
  | S754_finite false m e => str (positive_to_string m e)
  | S754_finite true m e => str ("-" ++ positive_to_string m e)
  end.

(** *** Exceptions *)

Inductive exception :=
| TypeError
| SyntaxError
| Error (message : jsstring).

Inductive completion (A : Type) :=
| Normal (a : A)
| Throw (e : exception).
Arguments Normal {A} a.
Arguments Throw {A} e.

Definition bind {A B} (c : completion A) (k : A -> completion B) : completion B :=
  match c with
  | Normal a => k a
  | Throw e => Throw e
  end.

Notation "x <- c ;; k" := (bind c (fun x => k))
  (at level 61, c at next level, right associativity).

(** *** JSON values

    What [JSON.parse] returns.  An object keeps its own properties in
    insertion order, each name once.  [undefined] is not a JSON value: a
    value that may be [undefined] is an [option json]. *)

Inductive json :=
| JNull
| JBool (b : bool)
| JNum (x : number)
| JStr (s : jsstring)
| JArr (elements : list json)
| JObj (properties : list (jsstring * json)).

Definition value := option json.
Definition undefined : value := None.

Definition number_truthy (x : number) : bool :=
  match x with
  | S754_zero _ | S754_nan => false
  | _ => true
  end.

Definition json_truthy (v : json) : bool :=
  match v with
  | JNull => false
  | JBool b => b
  | JNum x => number_truthy x
  | JStr s => match s with [] => false | _ => true end
  | JArr _ | JObj _ => true
  end.

Definition ToBoolean (v : value) : bool :=
  match v with
  | None => false
  | Some j => json_truthy j
  end.

Fixpoint own_property {A} (props : list (jsstring * A)) (k : jsstring) : option A :=
  match props with
  | [] => None
  | (k', v) :: rest => if jsstring_eqb k' k then Some v else own_property rest k
  end.

Definition comma : code_unit := 44%N.

(** ToString.  An array is joined with commas, [null] elements as the empty
    string.  An object has no callable [toString] of its own: with an own
    property of that name the conversion finds no primitive and throws,
    without one it inherits [Object.prototype.toString]. *)
Fixpoint ToString (v : json) : completion jsstring :=
  match v with
  | JNull => Normal (str "null")
  | JBool true => Normal (str "true")
  | JBool false => Normal (str "false")
  | JNum x => Normal (number_to_string x)
  | JStr s => Normal s
  | JArr l =>
      (fix join (l : list json) (first : bool) : completion jsstring :=
         match l with
         | [] => Normal []
         | x :: rest =>
             sx <- match x with JNull => Normal [] | _ => ToString x end ;;
             sr <- join rest false ;;
             Normal ((if first then [] else [comma]) ++ sx ++ sr)
         end) l true
  | JObj props =>
      match own_property props (str "toString") with
      | Some _ => Throw TypeError
      | None => Normal (str "[object Object]")
      end
  end.

(** ToPropertyKey of a value used as a computed property name. *)
Definition ToPropertyKey (v : value) : completion jsstring :=
  match v with
  | None => Normal (str "undefined")
  | Some j => ToString j
  end.

(** *** Property reads

    [Get v k] is the read [v.k] for the property names the program reads
    by name ([shapes], [modelKey], [type], [position], ...): none of them
    is defined on a built-in prototype, so only an object's own property
    can answer, and reading from [undefined] or [null] throws. *)
Definition Get (v : value) (k : string) : completion value :=
  match v with
  | None | Some JNull => Throw TypeError
  | Some (JObj props) => Normal (own_property props (str k))
  | Some _ => Normal undefined
  end.

(** [GetIndex v i] is the read [v[i]] for a literal index [i]. *)
Definition GetIndex (v : value) (i : nat) : completion value :=
  match v with
  | None | Some JNull => Throw TypeError
  | Some (JArr l) => Normal (nth_error l i)
  | Some (JStr s) => Normal (option_map (fun c => JStr [c]) (nth_error s i))
  | Some (JObj props) =>
      Normal (own_property props (str (decimal_string (Z.of_nat i))))
  | Some _ => Normal undefined
  end.

(** *** Object literals used as lookup tables

    A table written as an object literal inherits from [Object.prototype]:
    a computed read finds the literal's own properties first and then the
    prototype's members, each of which is a function or, for [__proto__],
    the prototype object, hence truthy. *)
Inductive member :=
| Own (url : jsstring)
| Inherited (name : jsstring).

Definition Object_prototype : list string :=
  [ "constructor"; "hasOwnProperty"; "isPrototypeOf"; "propertyIsEnumerable";
    "toLocaleString"; "toString"; "valueOf"; "__proto__";
    "__defineGetter__"; "__defineSetter__"; "__lookupGetter__";
    "__lookupSetter__" ]%string.

Definition table := list (string * string).

Definition is_key (names : list string) (k : jsstring) : bool :=
  existsb (fun n => jsstring_eqb (str n) k) names.

Definition lookup (t : table) (k : jsstring) : option member :=
  match own_property (List.map (fun kv => (str (fst kv), str (snd kv))) t) k with
  | Some url => Some (Own url)
  | None => if is_key Object_prototype k then Some (Inherited k) else None
  end.

Definition member_truthy (m : option member) : bool :=
  match m with
  | None => false
  | Some (Own url) => match url with [] => false | _ => true end
  | Some (Inherited _) => true
  end.

Definition member_eqb (a b : member) : bool :=
  match a, b with
  | Own x, Own y => jsstring_eqb x y
  | Inherited x, Inherited y => jsstring_eqb x y
  | _, _ => false
  end.

(** *** String.prototype.trim *)

Definition is_white_space (c : code_unit) : bool :=
  existsb (N.eqb c)
    [ 9; 10; 11; 12; 13; 32; 160; 5760; 8232; 8233; 8239; 8287; 12288; 65279 ]%N
  || ((8192 <=? c) && (c <=? 8202))%N.

Fixpoint trim_start (s : jsstring) : jsstring :=
  match s with
  | c :: rest => if is_white_space c then trim_start rest else s
  | [] => []
  end.

Definition trim (s : jsstring) : jsstring :=
  rev (trim_start (rev (trim_start s))).

(** *** JSON.parse

    The text is cut into tokens by a machine that reads one code unit at a
    time, and the tokens are assembled by a machine with a stack of the
    enclosing arrays and objects.  Both are folds over their input, so the
    parse is total: it returns the value or throws [SyntaxError]. *)

Inductive token :=
| TLBrace | TRBrace | TLBracket | TRBracket | TColon | TComma
| TString (s : jsstring)
| TNumber (x : number)
| TTrue | TFalse | TNull.

Definition is_digit (c : code_unit) : bool := ((48 <=? c) && (c <=? 57))%N.
Definition is_letter (c : code_unit) : bool := ((97 <=? c) && (c <=? 122))%N.
Definition is_json_space (c : code_unit) : bool :=
  existsb (N.eqb c) [ 9; 10; 13; 32 ]%N.
Definition is_number_part (c : code_unit) : bool :=
  is_digit c || existsb (N.eqb c) [ 43; 45; 46; 69; 101 ]%N.

Definition hex_value (c : code_unit) : option N :=
  if is_digit c then Some (c - 48)%N
  else if ((97 <=? c) && (c <=? 102))%N then Some (c - 87)%N
  else if ((65 <=? c) && (c <=? 70))%N then Some (c - 55)%N
  else None.

Fixpoint span_digits (s : jsstring) : jsstring * jsstring :=
  match s with
  | c :: rest =>
      if is_digit c then let '(ds, r) := span_digits rest in (c :: ds, r)
      else ([], s)
  | [] => ([], [])
  end.

Definition digits_value (ds : jsstring) : Z :=
  fold_left (fun acc d => 10 * acc + (Z.of_N d - 48)) ds 0.

(** The exponent part of a number literal: what follows the fraction. *)
Definition parse_exponent (s : jsstring) : option Z :=
  match s with
  | [] => Some 0
  | c :: rest =>
      if (c =? 101)%N || (c =? 69)%N then
        let '(neg, rest') :=
          match rest with
          | 45%N :: r => (true, r)
          | 43%N :: r => (false, r)
          | _ => (false, rest)
          end in
        match span_digits rest' with
        | ((_ :: _) as ds, []) =>
            Some (if neg then - digits_value ds else digits_value ds)
        | _ => None
        end
      else None
  end.

(** A number literal: an optional minus sign; an integer part that is [0]
    or starts with a non-zero digit; an optional fraction, a point and at
    least one digit; an optional exponent. *)
Definition parse_number (s : jsstring) : option number :=
  let '(neg, s1) := match s with 45%N :: r => (true, r) | _ => (false, s) end in
  let '(int_part, s2) := span_digits s1 in
  match int_part with
  | [] => None
  | 48%N :: _ :: _ => None
  | _ =>
      let fraction :=
        match s2 with
        | 46%N :: r =>
            match span_digits r with
            | ((_ :: _) as ds, s3) => Some (ds, s3)
            | _ => None
            end
        | _ => Some ([], s2)
        end in
      match fraction with
      | None => None
      | Some (frac_part, s3) =>
          match parse_exponent s3 with
          | None => None
          | Some e =>
              Some (number_of_decimal neg
                      (digits_value (int_part ++ frac_part))
                      (e - Z.of_nat (List.length frac_part)))
          end
      end
  end.

Definition parse_word (s : jsstring) : option token :=
  if jsstring_eqb s (str "true") then Some TTrue
  else if jsstring_eqb s (str "false") then Some TFalse
  else if jsstring_eqb s (str "null") then Some TNull
  else None.

(** The state of the tokenizer; accumulators are kept reversed. *)
Inductive lex_state :=
| LIdle
| LString (acc : jsstring)
| LEscape (acc : jsstring)
| LHex (acc : jsstring) (remaining : nat) (code : N)
| LNumber (acc : jsstring)
| LWord (acc : jsstring).

Definition lex_idle (toks : list token) (c : code_unit)
  : option (lex_state * list token) :=
  if is_json_space c then Some (LIdle, toks)
  else if (c =? 123)%N then Some (LIdle, TLBrace :: toks)
  else if (c =? 125)%N then Some (LIdle, TRBrace :: toks)
  else if (c =? 91)%N then Some (LIdle, TLBracket :: toks)
  else if (c =? 93)%N then Some (LIdle, TRBracket :: toks)
  else if (c =? 58)%N then Some (LIdle, TColon :: toks)
  else if (c =? 44)%N then Some (LIdle, TComma :: toks)
  else if (c =? 34)%N then Some (LString [], toks)
  else if (c =? 45)%N || is_digit c then Some (LNumber [c], toks)
  else if is_letter c then Some (LWord [c], toks)
  else None.

Definition unescape (c : code_unit) : option code_unit :=
  if (c =? 34)%N then Some 34%N
  else if (c =? 92)%N then Some 92%N
  else if (c =? 47)%N then Some 47%N
  else if (c =? 98)%N then Some 8%N
  else if (c =? 102)%N then Some 12%N
  else if (c =? 110)%N then Some 10%N
  else if (c =? 114)%N then Some 13%N
  else if (c =? 116)%N then Some 9%N
  else None.

Definition lex_step (st : lex_state * list token) (c : code_unit)
  : option (lex_state * list token) :=
  let '(state, toks) := st in
  match state with
  | LIdle => lex_idle toks c
  | LString acc =>
      if (c =? 34)%N then Some (LIdle, TString (rev acc) :: toks)
      else if (c =? 92)%N then Some (LEscape acc, toks)
      else if (c <? 32)%N then None
      else Some (LString (c :: acc), toks)
  | LEscape acc =>
      if (c =? 117)%N then Some (LHex acc 4 0%N, toks)
      else option_map (fun u => (LString (u :: acc), toks)) (unescape c)
  | LHex acc remaining code =>
      match hex_value c with
      | None => None
      | Some h =>
          let code' := (code * 16 + h)%N in
          match remaining with
          | 1%nat => Some (LString (code' :: acc), toks)
          | _ => Some (LHex acc (Nat.pred remaining) code', toks)
          end
      end
  | LNumber acc =>
      if is_number_part c then Some (LNumber (c :: acc), toks)
      else match parse_number (rev acc) with
           | Some x => lex_idle (TNumber x :: toks) c
           | None => None
           end
  | LWord acc =>
      if is_letter c then Some (LWord (c :: acc), toks)
      else match parse_word (rev acc) with
           | Some t => lex_idle (t :: toks) c
           | None => None
           end
  end.

Definition lex_finish (st : lex_state * list token) : option (list token) :=
  let '(state, toks) := st in
  match state with
  | LIdle => Some (rev toks)
  | LNumber acc => option_map (fun x => rev (TNumber x :: toks)) (parse_number (rev acc))
  | LWord acc => option_map (fun t => rev (t :: toks)) (parse_word (rev acc))
  | _ => None
  end.

Fixpoint lex_from (st : lex_state * list token) (text : jsstring)
  : option (list token) :=
  match text with
  | [] => lex_finish st
  | c :: rest =>
      match lex_step st c with
      | Some st' => lex_from st' rest
      | None => None
      end
  end.

Definition lex (text : jsstring) : option (list token) := lex_from (LIdle, []) text.

(** An enclosing array (its items so far, reversed) or an enclosing object
    (its properties so far and the name awaiting its value). *)
Inductive frame :=
| FArr (items : list json)
| FObj (props : list (jsstring * json)) (key : jsstring).

Inductive parse_state :=
| SValue (stack : list frame)
| SArrFirst (stack : list frame)
| SArrNext (items : list json) (stack : list frame)
| SObjFirst (stack : list frame)
| SObjKey (props : list (jsstring * json)) (stack : list frame)
| SObjColon (props : list (jsstring * json)) (key : jsstring) (stack : list frame)
| SObjNext (props : list (jsstring * json)) (stack : list frame)
| SDone (v : json).

(** Defining a property again replaces its value and keeps its place. *)
Fixpoint set_property (props : list (jsstring * json)) (k : jsstring) (v : json)
  : list (jsstring * json) :=
  match props with
  | [] => [(k, v)]
  | (k', v') :: rest =>
      if jsstring_eqb k' k then (k', v) :: rest
      else (k', v') :: set_property rest k v
  end.

Definition complete (v : json) (stack : list frame) : parse_state :=
  match stack with
  | [] => SDone v
  | FArr items :: stack' => SArrNext (v :: items) stack'
  | FObj props key :: stack' => SObjNext (set_property props key v) stack'
  end.

Definition parse_value (stack : list frame) (t : token) : option parse_state :=
  match t with
  | TString s => Some (complete (JStr s) stack)
  | TNumber x => Some (complete (JNum x) stack)
  | TTrue => Some (complete (JBool true) stack)
  | TFalse => Some (complete (JBool false) stack)
  | TNull => Some (complete JNull stack)
  | TLBracket => Some (SArrFirst stack)
  | TLBrace => Some (SObjFirst stack)
  | _ => None
  end.

Definition parse_step (st : parse_state) (t : token) : option parse_state :=
  match st, t with
  | SValue stack, _ => parse_value stack t
  | SArrFirst stack, TRBracket => Some (complete (JArr []) stack)
  | SArrFirst stack, _ => parse_value (FArr [] :: stack) t
  | SArrNext items stack, TComma => Some (SValue (FArr items :: stack))
  | SArrNext items stack, TRBracket => Some (complete (JArr (rev items)) stack)
  | SObjFirst stack, TRBrace => Some (complete (JObj []) stack)
  | SObjFirst stack, TString k => Some (SObjColon [] k stack)
  | SObjKey props stack, TString k => Some (SObjColon props k stack)
  | SObjColon props k stack, TColon => Some (SValue (FObj props k :: stack))
  | SObjNext props stack, TComma => Some (SObjKey props stack)
  | SObjNext props stack, TRBrace => Some (complete (JObj props) stack)
  | _, _ => None
  end.

Fixpoint parse_from (st : parse_state) (toks : list token) : option json :=
  match toks with
  | [] => match st with SDone v => Some v | _ => None end
  | t :: rest =>
      match parse_step st t with
      | Some st' => parse_from st' rest
      | None => None
      end
  end.

Definition JSON_parse (text : jsstring) : completion json :=
  match lex text with
  | Some toks =>
      match parse_from (SValue []) toks with
      | Some v => Normal v
      | None => Throw SyntaxError
      end
  | None => Throw SyntaxError
  end.

End JS.

(** ** types.ts

    [GeneratedModelData] as it exists at run time: [shapes] holds whatever
    JSON the response carried there, and [modelUrl], when present, is what
    a read of the asset table returned. *)

Module Types.
Import JS.

Record GeneratedModelData := {
  shapes : json;
  modelUrl : option member
}.

Definition ShapeType : list string :=
  [ "box"; "sphere"; "cylinder"; "cone"; "torus"; "capsule" ]%string.

End Types.

(** ** services/geminiService.ts *)

Module geminiService.
Import JS Types.

Definition modelName : string := "gemini-3-pro-preview".

Definition ASSET_LIBRARY : table :=
  [ ("duck", "https://raw.githubusercontent.com/KhronosGroup/glTF-Sample-Models/master/2.0/Duck/glTF-Binary/Duck.glb");
    ("robot", "https://raw.githubusercontent.com/mrdoob/three.js/master/examples/models/gltf/RobotExpressive/RobotExpressive.glb");
    ("avocado", "https://raw.githubusercontent.com/KhronosGroup/glTF-Sample-Models/master/2.0/Avocado/glTF-Binary/Avocado.glb");
    ("boombox", "https://raw.githubusercontent.com/KhronosGroup/glTF-Sample-Models/master/2.0/BoomBox/glTF-Binary/BoomBox.glb");
    ("lantern", "https://raw.githubusercontent.com/KhronosGroup/glTF-Sample-Models/master/2.0/Lantern/glTF-Binary/Lantern.glb");
    ("buggy", "https://raw.githubusercontent.com/KhronosGroup/glTF-Sample-Models/master/2.0/Buggy/glTF-Binary/Buggy.glb");
    ("helmet", "https://raw.githubusercontent.com/KhronosGroup/glTF-Sample-Models/master/2.0/DamagedHelmet/glTF-Binary/DamagedHelmet.glb")
  ]%string.

(** [Object.keys(ASSET_LIBRARY).join(', ')] *)
Definition assetKeys : string :=
  String.concat ", " (List.map fst ASSET_LIBRARY).

(** The request handed to [ai.models.generateContent].  The system
    instruction and the response schema are fixed texts around [assetKeys];
    the request keeps what varies. *)
Record request := {
  model : string;
  contents : jsstring;
  instructed_keys : string
}.

(** What the awaited call does: it rejects, or it resolves to a response
    whose [text] is a string or [undefined]. *)
Inductive reply :=
| Rejects (reason : exception)
| Resolves (text : option jsstring).

Definition backend := request -> reply.

Definition request_for (prompt : jsstring) : request :=
  {| model := modelName; contents := prompt; instructed_keys := assetKeys |}.

(** The response schema (lines 58-90) read as a predicate on the parsed
    response: the types, the enumerations and the required properties. *)
Definition texture_names : list string :=
  [ "wood"; "brick"; "stone"; "metal"; "tech"; "checkers" ]%string.

Definition is_number (j : json) : bool :=
  match j with JNum _ => true | _ => false end.

Definition number_array (v : value) : bool :=
  match v with Some (JArr l) => forallb is_number l | _ => false end.

Definition optional_number (v : value) : bool :=
  match v with None => true | Some j => is_number j end.

Definition shape_schema (j : json) : bool :=
  match j with
  | JObj props =>
      match own_property props (str "type") with
      | Some (JStr s) => is_key ShapeType s
      | _ => false
      end
      && number_array (own_property props (str "position"))
      && number_array (own_property props (str "rotation"))
      && number_array (own_property props (str "scale"))
      && match own_property props (str "color") with
         | Some (JStr _) => true
         | _ => false
         end
      && optional_number (own_property props (str "metalness"))
      && optional_number (own_property props (str "roughness"))
      && match own_property props (str "texture") with
         | None | Some JNull => true
         | Some (JStr s) => is_key texture_names s
         | _ => false
         end
  | _ => false
  end.

Definition schema (j : json) : bool :=
  match j with
  | JObj props =>
      match own_property props (str "modelKey") with
      | None | Some JNull | Some (JStr _) => true
      | _ => false
      end
      && match own_property props (str "shapes") with
         | Some (JArr l) => forallb shape_schema l
         | _ => false
         end
  | _ => false
  end.

(** [parsed.shapes || []] *)
Definition or_empty (v : value) : json :=
  match v with
  | Some j => if json_truthy j then j else JArr []
  | None => JArr []
  end.

(** Lines 108-119: from the response text to the result. *)
Definition process_response (text : jsstring) : completion GeneratedModelData :=
  parsed <- JSON_parse text ;;
  shapes0 <- Get (Some parsed) "shapes" ;;
  let result := {| shapes := or_empty shapes0; modelUrl := None |} in
  modelKey <- Get (Some parsed) "modelKey" ;;
  if ToBoolean modelKey then
    key <- ToPropertyKey modelKey ;;
    if member_truthy (lookup ASSET_LIBRARY key) then
      modelKey' <- Get (Some parsed) "modelKey" ;;
      key' <- ToPropertyKey modelKey' ;;
      Normal {| shapes := shapes result; modelUrl := lookup ASSET_LIBRARY key' |}
    else Normal result
  else Normal result.

(** The body of the [try] block, lines 93-119. *)
Definition attempt (ai : backend) (req : request) : completion GeneratedModelData :=
  text <- match ai req with
          | Rejects reason => Throw reason
          | Resolves text => Normal text
          end ;;
  match text with
  | None | Some [] => Throw (Error (str "No response from AI"))
  | Some t => process_response t
  end.

(** The error of the [catch] block. *)
Definition failed : exception := Error (str "Failed to generate 3D model data.").

(** [generate3DStructure]: the requests sent to the backend, and the
    outcome of the promise. *)
Definition generate3DStructure (apiKey : jsstring) (ai : backend) (prompt : jsstring)
  : list request * completion GeneratedModelData :=
  match apiKey with
  | [] =>
      ([], Throw (Error (str "API Key is missing. Please set REACT_APP_API_KEY or check your environment.")))
  | _ =>
      let req := request_for prompt in
      ([req],
       match attempt ai req with
       | Normal result => Normal result
       | Throw _ => Throw failed
       end)
  end.

End geminiService.

(** ** components/GeneratedObject.tsx

    A component is modelled by what it renders.  [useTexture] hands back
    the one [Texture] object the loader keeps per URL, so the textures live
    in a store that rendering threads through, and a material refers to its
    texture by that URL.  Fetching the image and the model file is the
    rendering library's business and is not modelled: a load is taken to
    deliver its object.  The idle animation of [useFrame] writes only the
    pose of the enclosing group, which is not part of what is rendered
    here. *)

Module GeneratedObject.
Import JS Types.

(** A number written in the source as the decimal [m * 10^e]. *)
Definition dec (m e : Z) : number := number_of_decimal false m e.

Definition TEXTURE_MAP : table :=
  [ ("wood", "https://raw.githubusercontent.com/mrdoob/three.js/master/examples/textures/hardwood2_diffuse.jpg");
    ("brick", "https://raw.githubusercontent.com/mrdoob/three.js/master/examples/textures/brick_diffuse.jpg");
    ("stone", "https://raw.githubusercontent.com/mrdoob/three.js/master/examples/textures/planets/moon_1024.jpg");
    ("metal", "https://raw.githubusercontent.com/mrdoob/three.js/master/examples/textures/carbon/Carbon.png");
    ("tech", "https://raw.githubusercontent.com/mrdoob/three.js/master/examples/textures/uv_grid_opengl.jpg");
    ("checkers", "https://raw.githubusercontent.com/mrdoob/three.js/master/examples/textures/checker.png")
  ]%string.

(** *** The texture store *)

Inductive wrapping := RepeatWrapping | ClampToEdgeWrapping | MirroredRepeatWrapping.

Record Texture := {
  wrapS : wrapping;
  wrapT : wrapping;
  repeat : number * number
}.

(** A texture as the loader delivers it. *)
Definition loaded_texture : Texture :=
  {| wrapS := ClampToEdgeWrapping; wrapT := ClampToEdgeWrapping;
     repeat := (dec 1 0, dec 1 0) |}.

Definition texture_store := list (member * Texture).

Fixpoint texture_of (store : texture_store) (url : member) : option Texture :=
  match store with
  | [] => None
  | (u, t) :: rest => if member_eqb u url then Some t else texture_of rest url
  end.

Fixpoint modify (url : member) (f : Texture -> Texture) (store : texture_store)
  : texture_store :=
  match store with
  | [] => []
  | (u, t) :: rest =>
      if member_eqb u url then (u, f t) :: rest
      else (u, t) :: modify url f rest
  end.

(** *** Rendering: the store threaded through, and exceptions *)

Definition Render (A : Type) : Type := texture_store -> completion A * texture_store.

Definition ret {A} (a : A) : Render A := fun store => (Normal a, store).

Definition seq {A B} (c : Render A) (k : A -> Render B) : Render B :=
  fun store =>
    match c store with
    | (Normal a, store') => k a store'
    | (Throw e, store') => (Throw e, store')
    end.

Definition lift {A} (c : completion A) : Render A := fun store => (c, store).

Notation "x <~ c ;; k" := (seq c (fun x => k))
  (at level 61, c at next level, right associativity).

(** [useTexture(url)]: the store's texture for [url], loaded on first use. *)
Definition useTexture (url : member) : Render member :=
  fun store =>
    match texture_of store url with
    | Some _ => (Normal url, store)
    | None => (Normal url, store ++ [(url, loaded_texture)])
    end.

Definition assign (texture : member) (f : Texture -> Texture) : Render unit :=
  fun store => (Normal tt, modify texture f store).

(** *** What is rendered *)

Record material := {
  map : option member;
  color : value;
  metalness : json;
  roughness : json
}.

Inductive primitive := Box | Sphere | Cylinder | Cone | Torus | Capsule.

Definition vector := (value * value * value)%type.

Record mesh := {
  geometry : primitive;
  args : list number;
  position : vector;
  rotation : vector;
  scale : vector;
  surface : material
}.

Inductive node :=
| Model (src : member) (fit : number)
| Mesh (m : mesh).

(** *** The components *)

Definition TexturedMaterial (url : member) (color : value) (metalness roughness : json)
  : Render material :=
  texture <~ useTexture url ;;
  _ <~ assign texture (fun t => {| wrapS := wrapS t; wrapT := RepeatWrapping; repeat := repeat t |}) ;;
  _ <~ assign texture (fun t => {| wrapS := RepeatWrapping; wrapT := wrapT t; repeat := repeat t |}) ;;
  _ <~ assign texture (fun t => {| wrapS := wrapS t; wrapT := wrapT t; repeat := (dec 1 0, dec 1 0) |}) ;;
  ret {| map := Some texture; color := color;
         metalness := metalness; roughness := roughness |}.

(** A destructuring default: it replaces [undefined] only. *)
Definition default (v : value) (d : number) : json :=
  match v with
  | None => JNum d
  | Some j => j
  end.

Definition ShapeMaterial (shape : json) : Render material :=
  color <~ lift (Get (Some shape) "color") ;;
  metalness0 <~ lift (Get (Some shape) "metalness") ;;
  roughness0 <~ lift (Get (Some shape) "roughness") ;;
  texture <~ lift (Get (Some shape) "texture") ;;
  let metalness := default metalness0 (dec 3 (-1)) in
  let roughness := default roughness0 (dec 5 (-1)) in
  if ToBoolean texture then
    key <~ lift (ToPropertyKey texture) ;;
    match lookup TEXTURE_MAP key with
    | Some url =>
        if member_truthy (Some url)
        then TexturedMaterial url color metalness roughness
        else ret {| map := None; color := color;
                    metalness := metalness; roughness := roughness |}
    | None =>
        ret {| map := None; color := color;
               metalness := metalness; roughness := roughness |}
    end
  else
    ret {| map := None; color := color;
           metalness := metalness; roughness := roughness |}.

(** The [switch] on [type]: the primitive and its constructor arguments. *)
Definition select (type : value) : option (primitive * list number) :=
  match type with
  | Some (JStr s) =>
      if jsstring_eqb s (str "box") then Some (Box, [dec 1 0; dec 1 0; dec 1 0])
      else if jsstring_eqb s (str "sphere") then Some (Sphere, [dec 1 0; dec 32 0; dec 32 0])
      else if jsstring_eqb s (str "cylinder") then Some (Cylinder, [dec 1 0; dec 1 0; dec 1 0; dec 32 0])
      else if jsstring_eqb s (str "cone") then Some (Cone, [dec 1 0; dec 2 0; dec 32 0])
      else if jsstring_eqb s (str "torus") then Some (Torus, [dec 1 0; dec 4 (-1); dec 16 0; dec 32 0])
      else if jsstring_eqb s (str "capsule") then Some (Capsule, [dec 5 (-1); dec 1 0; dec 4 0; dec 16 0])
      else None
  | _ => None
  end.

(** [[v[0], v[1], v[2]]] *)
Definition triple (v : value) : completion vector :=
  x <- GetIndex v 0 ;;
  y <- GetIndex v 1 ;;
  z <- GetIndex v 2 ;;
  Normal (x, y, z).

Definition ShapeRenderer (shape : json) : Render (option mesh) :=
  type <~ lift (Get (Some shape) "type") ;;
  position <~ lift (Get (Some shape) "position") ;;
  rotation <~ lift (Get (Some shape) "rotation") ;;
  scale <~ lift (Get (Some shape) "scale") ;;
  pos <~ lift (triple position) ;;
  rot <~ lift (triple rotation) ;;
  scl <~ lift (triple scale) ;;
  match select type with
  | Some (g, a) =>
      content <~ ShapeMaterial shape ;;
      ret (Some {| geometry := g; args := a; position := pos; rotation := rot;
                   scale := scl; surface := content |})
  | None => ret None
  end.

(** [data.shapes.map(...)], the [null]s of skipped entries left out. *)
Fixpoint render_shapes (l : list json) : Render (list node) :=
  match l with
  | [] => ret []
  | shape :: rest =>
      r <~ ShapeRenderer shape ;;
      nodes <~ render_shapes rest ;;
      ret (match r with Some m => Mesh m :: nodes | None => nodes end)
  end.

(** [data.shapes.map(...)] on whatever [shapes] holds: only an array has a
    [map] to call. *)
Definition map_shapes (data : GeneratedModelData) : Render (list node) :=
  match shapes data with
  | JArr l => render_shapes l
  | _ => lift (Throw TypeError)
  end.

(** The children of the group that [GeneratedObject] renders. *)
Definition GeneratedObject (data : GeneratedModelData) : Render (list node) :=
  match modelUrl data with
  | Some src =>
      if member_truthy (Some src) then ret [Model src (dec 25 (-1))]
      else map_shapes data
  | None => map_shapes data
  end.

End GeneratedObject.

(** ** App.tsx *)

Module App.
Import JS Types geminiService.

Record state := {
  prompt : jsstring;
  isARMode : bool;
  loading : bool;
  modelData : option GeneratedModelData;
  error : option jsstring
}.

Definition setLoading (b : bool) (s : state) : state :=
  {| prompt := prompt s; isARMode := isARMode s; loading := b;
     modelData := modelData s; error := error s |}.

Definition setError (e : option jsstring) (s : state) : state :=
  {| prompt := prompt s; isARMode := isARMode s; loading := loading s;
     modelData := modelData s; error := e |}.

Definition setModelData (d : GeneratedModelData) (s : state) : state :=
  {| prompt := prompt s; isARMode := isARMode s; loading := loading s;
     modelData := Some d; error := error s |}.

(** [err.message].  [generate3DStructure] throws an [Error] with its
    message; the text a built-in error carries is the engine's own. *)
Definition message (e : exception) : jsstring :=
  match e with
  | Error m => m
  | TypeError => str "TypeError"
  | SyntaxError => str "SyntaxError"
  end.

(** [err.message || "Failed to generate object"] *)
Definition or_default (m : jsstring) : jsstring :=
  match m with
  | [] => str "Failed to generate object"
  | _ => m
  end.

(** [handleGenerate], run to completion: the requests sent to the backend
    and the state the component is left in. *)
Definition handleGenerate (apiKey : jsstring) (ai : backend) (s : state)
  : list request * state :=
  match trim (prompt s) with
  | [] => ([], s)
  | _ =>
      let s1 := setError None (setLoading true s) in
      let '(sent, outcome) := generate3DStructure apiKey ai (prompt s) in
      let s2 := match outcome with
                | Normal data => setModelData data s1
                | Throw err => setError (Some (or_default (message err))) s1
                end in
      (sent, setLoading false s2)
  end.


(** *** The rest of the component: its other state, its events, its view *)

Definition setPrompt (p : jsstring) (s : state) : state :=
  {| prompt := p; isARMode := isARMode s; loading := loading s;
     modelData := modelData s; error := error s |}.

Definition setIsARMode (b : bool) (s : state) : state :=
  {| prompt := prompt s; isARMode := b; loading := loading s;
     modelData := modelData s; error := error s |}.

(** The initial values of the five [useState] calls. *)
Definition initial : state :=
  {| prompt := []; isARMode := false; loading := false;
     modelData := None; error := None |}.

Definition num (neg : bool) (m e : Z) : json := JNum (number_of_decimal neg m e).

Definition vec (x y z : json) : json := JArr [x; y; z].

(** A shape literal of the demo model, its properties in the order written. *)
Definition shape (type : string) (position scale rotation : json) (color : string)
    (more : list (jsstring * json)) : json :=
  JObj ([ (str "type", JStr (str type)); (str "position", position);
          (str "scale", scale); (str "rotation", rotation);
          (str "color", JStr (str color)) ] ++ more).

Definition zero : json := num false 0 0.

(** The demo model that the mount effect sets (lines 18-35). *)
Definition demo : GeneratedModelData :=
  {| shapes := JArr
       [ shape "cylinder" (vec zero (num true 1 0) zero)
           (vec (num false 12 (-1)) (num false 2 (-1)) (num false 12 (-1)))
           (vec zero zero zero) "#555555"
           [ (str "texture", JStr (str "stone")); (str "roughness", num false 9 (-1)) ];
         shape "cylinder" (vec zero (num true 2 (-1)) zero)
           (vec (num false 4 (-1)) (num false 15 (-1)) (num false 4 (-1)))
           (vec zero zero zero) "#8B4513"
           [ (str "texture", JStr (str "wood")); (str "roughness", num false 8 (-1)) ];
         shape "cone" (vec zero (num false 5 (-1)) zero)
           (vec (num false 13 (-1)) (num false 12 (-1)) (num false 13 (-1)))
           (vec zero zero zero) "#228B22"
           [ (str "roughness", num false 1 0) ];
         shape "cone" (vec zero (num false 12 (-1)) zero)
           (vec (num false 10 (-1)) (num false 10 (-1)) (num false 10 (-1)))
           (vec zero zero zero) "#32CD32"
           [ (str "roughness", num false 1 0) ];
         shape "cone" (vec zero (num false 18 (-1)) zero)
           (vec (num false 7 (-1)) (num false 8 (-1)) (num false 7 (-1)))
           (vec zero zero zero) "#7CFC00"
           [ (str "roughness", num false 1 0) ];
         shape "sphere" (vec (num false 6 (-1)) (num false 4 (-1)) (num false 6 (-1)))
           (vec (num false 15 (-2)) (num false 15 (-2)) (num false 15 (-2)))
           (vec zero zero zero) "#FF0000"
           [ (str "metalness", num false 8 (-1)); (str "roughness", num false 2 (-1)) ];
         shape "sphere" (vec (num true 5 (-1)) (num false 10 (-1)) (num false 5 (-1)))
           (vec (num false 15 (-2)) (num false 15 (-2)) (num false 15 (-2)))
           (vec zero zero zero) "#FFFF00"
           [ (str "metalness", num false 8 (-1)); (str "roughness", num false 2 (-1)) ] ];
     modelUrl := None |}.

(** The effect that runs once when the component mounts. *)
Definition mount (s : state) : state := setModelData demo s.

Definition toggleAR (s : state) : state := setIsARMode (negb (isARMode s)) s.

(** [disabled={loading || !prompt.trim()}] on the generate button. *)
Definition disabled (s : state) : bool :=
  loading s || match trim (prompt s) with [] => true | _ => false end.

(** [{error && (...)}]: the text of the error banner, when one is shown. *)
Definition banner (s : state) : option jsstring :=
  match error s with
  | Some (c :: m) => Some (c :: m)
  | _ => None
  end.

(** The surroundings of the generated object: manual lights in AR mode,
    a [Stage] otherwise. *)
Inductive staging := Lights | Stage.

(** [modelData ? (isARMode ? ... : ...) : null]: what the canvas holds. *)
Definition displayed (s : state) : option (staging * GeneratedModelData) :=
  match modelData s with
  | Some data => Some (if isARMode s then Lights else Stage, data)
  | None => None
  end.

(** What the user does: types into the input, presses a key in it, clicks
    the generate button, clicks the AR button. *)
Inductive event :=
| Change (v : jsstring)
| KeyDown (key : jsstring)
| ClickGenerate
| ClickAR.

(** The handlers wired in the markup, each run to completion. *)
Definition dispatch (apiKey : jsstring) (ai : backend) (e : event) (s : state)
  : list request * state :=
  match e with
  | Change v => ([], setPrompt v s)
  | KeyDown key =>
      if jsstring_eqb key (str "Enter") then handleGenerate apiKey ai s
      else ([], s)
  | ClickGenerate =>
      if disabled s then ([], s) else handleGenerate apiKey ai s
  | ClickAR => ([], toggleAR s)
  end.

Fixpoint run (apiKey : jsstring) (ai : backend) (events : list event) (s : state)
  : list request * state :=
  match events with
  | [] => ([], s)
  | e :: rest =>
      let '(sent, s1) := dispatch apiKey ai e s in
      let '(sent', s2) := run apiKey ai rest s1 in
      (sent ++ sent', s2)
  end.

End App.

(** ** The contract as the specification words it

    Three sentences of the specification are kept here in their own words,
    to be compared with what the program does. *)

Module Contract.
Import JS Types geminiService.

(** A recognized key in [modelKey] gives its URL and an empty [shapes];
    any other response gives no URL and the parsed [shapes]. *)
Definition library_key_empties_shapes : Prop :=
  forall apiKey ai prompt text parsed,
    apiKey <> [] ->
    ai (request_for prompt) = Resolves (Some text) ->
    JSON_parse text = Normal parsed ->
    (forall name url,
        In (name, url) ASSET_LIBRARY ->
        Get (Some parsed) "modelKey" = Normal (Some (JStr (str name))) ->
        snd (generate3DStructure apiKey ai prompt)
        = Normal {| shapes := JArr []; modelUrl := Some (Own (str url)) |})
    /\ ((forall name url,
            In (name, url) ASSET_LIBRARY ->
            Get (Some parsed) "modelKey" <> Normal (Some (JStr (str name)))) ->
        forall sh,
          Get (Some parsed) "shapes" = Normal sh ->
          snd (generate3DStructure apiKey ai prompt)
          = Normal {| shapes := or_empty sh; modelUrl := None |}).

(** A response that breaks the schema is rejected. *)
Definition response_is_validated : Prop :=
  forall apiKey ai prompt text parsed,
    apiKey <> [] ->
    ai (request_for prompt) = Resolves (Some text) ->
    JSON_parse text = Normal parsed ->
    schema parsed = false ->
    exists e, snd (generate3DStructure apiKey ai prompt) = Throw e.

(** An empty prompt makes the generator fail. *)
Definition empty_prompt_fails : Prop :=
  forall apiKey ai,
    exists e, snd (generate3DStructure apiKey ai []) = Throw e.

End Contract.

(** ** Scenes, as the renderer reads them *)

Module Scene.
Import JS Types GeneratedObject.

(** A value that can be indexed: neither [undefined] nor [null]. *)
Definition present (v : value) : bool :=
  match v with
  | None | Some JNull => false
  | Some _ => true
  end.

(** A texture field as the data model has it: absent, [null] or a string. *)
Definition plain_texture (v : value) : bool :=
  match v with
  | None | Some JNull | Some (JStr _) => true
  | Some _ => false
  end.

(** A shape entry: an object that has its three vectors and a plain
    texture.  Its kind, colour and material numbers are left open. *)
Definition shape_entry (shape : json) : bool :=
  match shape with
  | JObj props =>
      present (own_property props (str "position"))
      && present (own_property props (str "rotation"))
      && present (own_property props (str "scale"))
      && plain_texture (own_property props (str "texture"))
  | _ => false
  end.

Definition kind_of (shape : json) : value :=
  match shape with
  | JObj props => own_property props (str "type")
  | _ => None
  end.

(** The kind is one of the six of [ShapeType]. *)
Definition valid_kind (shape : json) : bool :=
  match kind_of shape with
  | Some (JStr s) => is_key ShapeType s
  | _ => false
  end.

Definition primitive_name (g : primitive) : string :=
  match g with
  | Box => "box"
  | Sphere => "sphere"
  | Cylinder => "cylinder"
  | Cone => "cone"
  | Torus => "torus"
  | Capsule => "capsule"
  end.

(** An entry and the node rendered for it: a mesh of the entry's kind. *)
Definition renders (shape : json) (n : node) : Prop :=
  exists m, n = Mesh m
            /\ kind_of shape = Some (JStr (str (primitive_name (geometry m)))).

(** The texture of a textured material once it has been rendered. *)
Definition tiled : Texture :=
  {| wrapS := RepeatWrapping; wrapT := RepeatWrapping;
     repeat := (dec 1 0, dec 1 0) |}.

Definition node_map (n : node) : option member :=
  match n with
  | Mesh m => map (surface m)
  | Model _ _ => None
  end.

(** A node together with the parameters of the texture it refers to. *)
Definition with_texture (store : texture_store) (n : node) : node * option Texture :=
  (n, match node_map n with
      | Some url => texture_of store url
      | None => None
      end).

(** The scene graph a rendering leaves: its nodes, each with the texture
    parameters found in the store that the rendering left. *)
Definition scene_graph (r : completion (list node) * texture_store)
  : completion (list (node * option Texture)) :=
  match fst r with
  | Normal nodes => Normal (List.map (with_texture (snd r)) nodes)
  | Throw e => Throw e
  end.

(** The texture a texture field selects: a non-empty string is looked up
    in [TEXTURE_MAP] as it stands, anything else selects none. *)
Definition chosen_texture (v : value) : option member :=
  match v with
  | Some (JStr (c :: k)) => lookup TEXTURE_MAP (c :: k)
  | _ => None
  end.

(** Rendering from [s] to [s'] keeps the textures that are tiled. *)
Definition keeps_tiled (s s' : texture_store) : Prop :=
  forall u, texture_of s u = Some tiled -> texture_of s' u = Some tiled.

(** The textures a rendered thing refers to. *)
Definition material_refs (m : material) : list member :=
  match map m with
  | Some url => [url]
  | None => []
  end.

Definition mesh_refs (r : option mesh) : list member :=
  match r with
  | Some m => material_refs (surface m)
  | None => []
  end.

Definition node_refs (n : node) : list member :=
  match n with
  | Mesh m => material_refs (surface m)
  | Model _ _ => []
  end.

Definition nodes_refs (nodes : list node) : list member :=
  flat_map node_refs nodes.

(** A rendering is steady when its outcome does not depend on the store it
    starts from, when it keeps tiled textures tiled, and when the textures
    its result refers to are tiled in the store it leaves. *)
Definition steady {A} (refs : A -> list member) (c : Render A) : Prop :=
  (forall s1 s2, fst (c s1) = fst (c s2))
  /\ (forall s, keeps_tiled s (snd (c s)))
  /\ (forall s a, fst (c s) = Normal a ->
        Forall (fun u => texture_of (snd (c s)) u = Some tiled) (refs a)).

(** The first three components of a vector, [undefined] where missing. *)
Definition components (l : list json) : vector :=
  (nth_error l 0, nth_error l 1, nth_error l 2).


(** A texture field whose lookup does not throw: falsy, or convertible to
    a property name. *)
Definition convertible (v : value) : bool :=
  negb (ToBoolean v)
  || match ToPropertyKey v with Normal _ => true | Throw _ => false end.

(** An entry that [ShapeRenderer] gets through: an object with its three
    vectors, and, when its kind is one of the six, a convertible texture. *)
Definition renderable (shape : json) : bool :=
  match shape with
  | JObj props =>
      present (own_property props (str "position"))
      && present (own_property props (str "rotation"))
      && present (own_property props (str "scale"))
      && match select (own_property props (str "type")) with
         | Some _ => convertible (own_property props (str "texture"))
         | None => true
         end
  | _ => false
  end.

Definition scene_renderable (data : GeneratedModelData) : bool :=
  member_truthy (modelUrl data)
  || match shapes data with
     | JArr l => forallb renderable l
     | _ => false
     end.

(** A vector that is an array, of whatever length. *)
Definition is_array (v : value) : bool :=
  match v with
  | Some (JArr _) => true
  | _ => false
  end.

(** A vector that is missing, or an array of whatever length. *)
Definition missing_or_array (v : value) : bool :=
  match v with
  | None | Some (JArr _) => true
  | Some _ => false
  end.

(** The renderer's tolerance as the specification words it: an entry of a
    known kind whose scale is missing or zero, or whose vectors are short of
    components, renders to a node, and so does a scene of shape entries
    that holds it. *)
Definition tolerates_missing_scale : Prop :=
  forall props before after store,
    valid_kind (JObj props) = true ->
    plain_texture (own_property props (str "texture")) = true ->
    is_array (own_property props (str "position")) = true ->
    is_array (own_property props (str "rotation")) = true ->
    missing_or_array (own_property props (str "scale")) = true ->
    Forall (fun shape => shape_entry shape = true) before ->
    Forall (fun shape => shape_entry shape = true) after ->
    (exists m store',
        ShapeRenderer (JObj props) store = (Normal (Some m), store'))
    /\ (exists nodes store',
           GeneratedObject {| shapes := JArr (before ++ JObj props :: after);
                              modelUrl := None |} store
           = (Normal nodes, store')).

(** A rendering is settled when it changes nothing in a store in which all
    that was tiled after an earlier run of it is still tiled. *)
Definition settled {A} (c : Render A) : Prop :=
  forall s s', keeps_tiled (snd (c s)) s' -> snd (c s') = s'.

End Scene.

(** ** Sample responses and scenes *)

Module Samples.
Import JS Types geminiService.

(** The text [s] with every apostrophe read as a double quote. *)
Definition quoted (s : string) : jsstring :=
  List.map (fun c => if (c =? 39)%N then 34%N else c) (str s).

(** A backend that answers every request with the same text. *)
Definition answering (text : jsstring) : backend :=
  fun _ => Resolves (Some text).

Definition key : jsstring := str "secret".

Definition duck_url : jsstring :=
  str "https://raw.githubusercontent.com/KhronosGroup/glTF-Sample-Models/master/2.0/Duck/glTF-Binary/Duck.glb".

(** The response for a small red cube. *)
Definition red_cube_text : jsstring :=
  quoted "{'shapes':[{'type':'box','position':[0,0,0],'rotation':[0,0,0],'scale':[0.5,0.5,0.5],'color':'#ff0000'}]}".

(** A response that names the duck and carries a shape as well. *)
Definition duck_and_cube_text : jsstring :=
  quoted "{'modelKey':'duck','shapes':[{'type':'box','position':[0,0,0],'rotation':[0,0,0],'scale':[1,1,1],'color':'#ff0000'}]}".

(** A response whose shape breaks the schema in its kind, in the type of
    [position] and [color], in its texture and in the range of
    [metalness]. *)
Definition off_schema_text : jsstring :=
  quoted "{'shapes':[{'type':'pyramid','position':'up','rotation':[0,0,0],'scale':[1,1,1],'color':7,'metalness':7.5,'texture':'lava'}]}".

Definition empty_scene_text : jsstring := quoted "{'shapes':[]}".

(** The value a text parses to ([null] when it does not parse). *)
Definition parsed_of (text : jsstring) : json :=
  match JSON_parse text with
  | Normal v => v
  | Throw _ => JNull
  end.

(** The property [k] of the value a text parses to. *)
Definition field (text : jsstring) (k : string) : value :=
  match Get (Some (parsed_of text)) k with
  | Normal v => v
  | Throw _ => None
  end.

(** The entries of the [shapes] array of the value a text parses to. *)
Definition entries (text : jsstring) : list json :=
  match field text "shapes" with
  | Some (JArr l) => l
  | _ => []
  end.

(** A box, an entry of unknown kind and a wooden sphere. *)
Definition mixed_text : jsstring :=
  quoted "{'shapes':[{'type':'box','position':[0,0,0],'rotation':[0,0,0],'scale':[1,1,1],'color':'#ff0000'},{'type':'pyramid','position':[0,1,0],'rotation':[0,0,0],'scale':[1,1,1],'color':'#00ff00'},{'type':'sphere','position':[0,2,0],'rotation':[0,0,0],'scale':[1,1,1],'color':'#0000ff','texture':'wood'}]}".

(** A cone without extent: a zero scale, a position of two components and
    a rotation of none. *)
Definition flat_cone_text : jsstring :=
  quoted "{'type':'cone','position':[0,1],'rotation':[],'scale':[0,0,0],'color':'#ffffff'}".

(** A box whose texture is the name of a member of [Object.prototype]. *)
Definition constructor_box_text : jsstring :=
  quoted "{'type':'box','position':[0,0,0],'rotation':[0,0,0],'scale':[1,1,1],'color':'#ff0000','texture':'constructor'}".

(** A response with a shape whose metalness and roughness leave [0,1] and
    whose texture is no key of the texture table. *)
Definition out_of_range_text : jsstring :=
  quoted "{'shapes':[{'type':'box','position':[0,0,0],'rotation':[0,0,0],'scale':[1,1,1],'color':'#ff0000','metalness':7.5,'roughness':-2,'texture':'lava'}]}".

(** A box that has no scale at all. *)
Definition unscaled_box_text : jsstring :=
  quoted "{'type':'box','position':[0,0,0],'rotation':[0,0,0],'color':'#ff0000'}".

Definition properties (j : json) : list (jsstring * json) :=
  match j with
  | JObj props => props
  | _ => []
  end.


(** A response that meets the schema: a wooden sphere and a box. *)
Definition conforming_text : jsstring :=
  quoted "{'modelKey':null,'shapes':[{'type':'sphere','position':[0,1,0],'rotation':[0,0,0],'scale':[1,1,1],'color':'#ffffff','metalness':0.8,'texture':'wood'},{'type':'box','position':[0,0,0],'rotation':[0,0.5,0],'scale':[2,0.1,2],'color':'#222222'}]}".

(** A response that is a number. *)
Definition number_text : jsstring := quoted "42".

(** A response whose shapes is a string. *)
Definition string_shapes_text : jsstring := quoted "{'shapes':'cube'}".

(** A box whose texture is the key [wood] with a capital letter. *)
Definition capital_wood_text : jsstring :=
  quoted "{'type':'box','position':[0,0,0],'rotation':[0,0,0],'scale':[1,1,1],'color':'#ff0000','texture':'Wood'}".

(** The component after the user has typed [p]. *)
Definition typed (p : string) : App.state := App.setPrompt (str p) App.initial.

(** A store that holds a texture no scene here uses, with a mirrored wrap. *)
Definition foreign_store : GeneratedObject.texture_store :=
  [ (Own (str "https://example.org/grass.png"),
     {| GeneratedObject.wrapS := GeneratedObject.MirroredRepeatWrapping;
        GeneratedObject.wrapT := GeneratedObject.MirroredRepeatWrapping;
        GeneratedObject.repeat := (GeneratedObject.dec 4 0, GeneratedObject.dec 4 0) |}) ].

End Samples.

(** ** Facts about the runtime model *)

Import JS Types.

Lemma jsstring_eqb_refl (s : jsstring) : jsstring_eqb s s = true.
Proof.
  induction s as [|c s IH]; simpl; [reflexivity|].
  now rewrite N.eqb_refl, IH.
Qed.

Lemma jsstring_eqb_eq (a b : jsstring) : jsstring_eqb a b = true <-> a = b.
Proof.
  split.
  - revert b; induction a as [|x a IH]; intros [|y b]; simpl; try discriminate; auto.
    intros H. apply andb_true_iff in H as [Hx Hab].
    apply N.eqb_eq in Hx. apply IH in Hab. now subst.
  - intros ->. apply jsstring_eqb_refl.
Qed.

Lemma jsstring_eqb_sym (a b : jsstring) : jsstring_eqb a b = jsstring_eqb b a.
Proof.
  destruct (jsstring_eqb a b) eqn:E1, (jsstring_eqb b a) eqn:E2; try reflexivity.
  - apply jsstring_eqb_eq in E1; subst. now rewrite jsstring_eqb_refl in E2.
  - apply jsstring_eqb_eq in E2; subst. now rewrite jsstring_eqb_refl in E1.
Qed.

Lemma member_eqb_eq (a b : member) : member_eqb a b = true <-> a = b.
Proof.
  destruct a, b; simpl; split; intros H;
    try discriminate; try (apply jsstring_eqb_eq in H; now subst);
    injection H as ->; apply jsstring_eqb_refl.
Qed.

Lemma member_eqb_refl (a : member) : member_eqb a a = true.
Proof. now apply member_eqb_eq. Qed.

Lemma JSON_parse_empty : JSON_parse [] = Throw SyntaxError.
Proof. reflexivity. Qed.

Lemma parsed_text_nonempty (text : jsstring) (parsed : json) :
  JSON_parse text = Normal parsed -> text <> [].
Proof. intros H ->. discriminate H. Qed.

Lemma Get_object (props : list (jsstring * json)) (k : string) :
  Get (Some (JObj props)) k = Normal (own_property props (str k)).
Proof. reflexivity. Qed.

Lemma trim_start_blank (s : jsstring) :
  forallb is_white_space s = true -> trim_start s = [].
Proof.
  induction s as [|c s IH]; simpl; [reflexivity|].
  intros H. apply andb_true_iff in H as [Hc Hs]. now rewrite Hc, IH.
Qed.

Lemma trim_blank (s : jsstring) :
  forallb is_white_space s = true -> trim s = [].
Proof. intros H. unfold trim. now rewrite (trim_start_blank _ H). Qed.

(** *** Reads of a table *)

Section Tables.

Variable t : table.

(** An own read answers with an entry of the table. *)
Lemma lookup_own (k url : jsstring) :
  lookup t k = Some (Own url) ->
  exists name u, In (name, u) t /\ k = str name /\ url = str u.
Proof.
  unfold lookup.
  destruct (own_property _ k) as [u|] eqn:Hown.
  - intros [= <-]. induction t as [|[n v] t' IH]; simpl in Hown; [discriminate|].
    destruct (jsstring_eqb (str n) k) eqn:E.
    + injection Hown as <-. apply jsstring_eqb_eq in E.
      exists n, v. split; [now left | now split].
    + destruct (IH Hown) as (name & u' & Hin & Hk & Hu).
      exists name, u'. split; [now right | now split].
  - destruct (is_key Object_prototype k); discriminate.
Qed.

Hypothesis urls : Forall (fun kv => snd kv <> EmptyString) t.

(** With no empty URL in the table, whatever a read finds is truthy. *)
Lemma lookup_truthy (k : jsstring) (m : member) :
  lookup t k = Some m -> member_truthy (Some m) = true.
Proof.
  destruct m as [url|name]; [|reflexivity].
  intros H. destruct (lookup_own _ _ H) as (name & u & Hin & _ & ->).
  rewrite Forall_forall in urls. specialize (urls _ Hin). simpl in urls.
  destruct u; [now elim urls | reflexivity].
Qed.

End Tables.

Lemma ASSET_LIBRARY_urls :
  Forall (fun kv => snd kv <> EmptyString) geminiService.ASSET_LIBRARY.
Proof. repeat constructor; discriminate. Qed.

Lemma TEXTURE_MAP_urls :
  Forall (fun kv => snd kv <> EmptyString) GeneratedObject.TEXTURE_MAP.
Proof. repeat constructor; discriminate. Qed.

Lemma ASSET_LIBRARY_lookup (name url : string) :
  In (name, url) geminiService.ASSET_LIBRARY ->
  lookup geminiService.ASSET_LIBRARY (str name) = Some (Own (str url)).
Proof.
  unfold geminiService.ASSET_LIBRARY; simpl.
  intros H; repeat destruct H as [H|H]; try contradiction;
    injection H as <- <-; vm_compute; reflexivity.
Qed.

Lemma TEXTURE_MAP_lookup (name url : string) :
  In (name, url) GeneratedObject.TEXTURE_MAP ->
  lookup GeneratedObject.TEXTURE_MAP (str name) = Some (Own (str url)).
Proof.
  unfold GeneratedObject.TEXTURE_MAP; simpl.
  intros H; repeat destruct H as [H|H]; try contradiction;
    injection H as <- <-; vm_compute; reflexivity.
Qed.

(** ** The scene generator *)

Section Generator.
Import geminiService.

Variables (apiKey : jsstring) (ai : backend) (prompt : jsstring).

(** Every failure of the generator is an [Error] with a message. *)
Lemma generate_throws_Error (e : exception) :
  snd (generate3DStructure apiKey ai prompt) = Throw e ->
  exists m, e = Error m /\ m <> [].
Proof.
  unfold generate3DStructure. destruct apiKey; cbn [snd].
  - intros [= <-]. eexists; split; [reflexivity | discriminate].
  - destruct (attempt ai _); intros [= <-].
    eexists; split; [reflexivity | discriminate].
Qed.

Hypothesis credential : apiKey <> [].

(** With a credential, exactly one request is sent, whatever happens. *)
Lemma generate_sends_one :
  fst (generate3DStructure apiKey ai prompt) = [request_for prompt].
Proof. destruct apiKey; [congruence | reflexivity]. Qed.

Lemma generate_attempt :
  generate3DStructure apiKey ai prompt
  = ([request_for prompt],
     match attempt ai (request_for prompt) with
     | Normal result => Normal result
     | Throw _ => Throw failed
     end).
Proof. destruct apiKey; [congruence | reflexivity]. Qed.

(** The ways the [try] block fails before it has a parsed response. *)
Lemma attempt_fails :
  (exists reason, ai (request_for prompt) = Rejects reason)
  \/ ai (request_for prompt) = Resolves None
  \/ ai (request_for prompt) = Resolves (Some [])
  \/ (exists text e, ai (request_for prompt) = Resolves (Some text)
                     /\ JSON_parse text = Throw e) ->
  exists e, attempt ai (request_for prompt) = Throw e.
Proof.
  unfold attempt.
  intros [(reason & ->) | [-> | [-> | (text & e & -> & Hp)]]]; cbn [bind];
    try (eexists; reflexivity).
  destruct text; [eexists; reflexivity|].
  unfold process_response. rewrite Hp. eexists; reflexivity.
Qed.

(** *** A response that parses and answers the two reads *)

Section Answered.

Variables (text : jsstring) (parsed : json) (sh mk : value).

Hypothesis answered : ai (request_for prompt) = Resolves (Some text).
Hypothesis parses : JSON_parse text = Normal parsed.
Hypothesis reads_shapes : Get (Some parsed) "shapes" = Normal sh.
Hypothesis reads_modelKey : Get (Some parsed) "modelKey" = Normal mk.

(** What the generator computes from such a response. *)
Lemma generate_answered :
  snd (generate3DStructure apiKey ai prompt)
  = match
      (if ToBoolean mk then
         key <- ToPropertyKey mk ;;
         Normal {| shapes := or_empty sh;
                   modelUrl := if member_truthy (lookup ASSET_LIBRARY key)
                               then lookup ASSET_LIBRARY key else None |}
       else Normal {| shapes := or_empty sh; modelUrl := None |})
    with
    | Normal result => Normal result
    | Throw _ => Throw failed
    end.
Proof.
  rewrite generate_attempt; cbn [snd]. unfold attempt.
  rewrite answered; cbn [bind].
  pose proof (parsed_text_nonempty _ _ parses) as Hne.
  destruct text as [|c rest] eqn:Etext; [congruence|]. rewrite <- Etext in *.
  unfold process_response.
  rewrite parses; cbn [bind]. rewrite reads_shapes; cbn [bind].
  rewrite reads_modelKey; cbn [bind].
  destruct (ToBoolean mk); [|reflexivity].
  destruct (ToPropertyKey mk) as [key|e]; cbn [bind]; [|reflexivity].
  destruct (member_truthy (lookup ASSET_LIBRARY key)); reflexivity.
Qed.

(** C1 (amended): for a response that parses and answers the two reads,
    a truthy [modelKey] naming an own key of the asset library sets
    [modelUrl] to that key's URL, a [modelKey] that is falsy or names no
    property of the library leaves [modelUrl] unset, and in both cases
    [shapes] is the parsed [shapes], or the empty array when that is absent
    or falsy. *)
Theorem generate_model_reference :
  (forall name url,
      ToBoolean mk = true ->
      ToPropertyKey mk = Normal (str name) ->
      In (name, url) ASSET_LIBRARY ->
      snd (generate3DStructure apiKey ai prompt)
      = Normal {| shapes := or_empty sh; modelUrl := Some (Own (str url)) |})
  /\ (ToBoolean mk = false
      \/ (exists k, ToPropertyKey mk = Normal k /\ lookup ASSET_LIBRARY k = None) ->
      snd (generate3DStructure apiKey ai prompt)
      = Normal {| shapes := or_empty sh; modelUrl := None |}).
Proof.
  rewrite generate_answered. split.
  - intros name url Ht Hc Hin. rewrite Ht, Hc; cbn [bind].
    pose proof (ASSET_LIBRARY_lookup _ _ Hin) as Hl. rewrite Hl.
    now rewrite (lookup_truthy _ ASSET_LIBRARY_urls _ _ Hl).
  - intros [Hf | (k & Hc & Hl)].
    + now rewrite Hf.
    + destruct (ToBoolean mk); [|reflexivity].
      rewrite Hc; cbn [bind]. now rewrite Hl.
Qed.

(** C4 (amended): the generator checks neither types nor enumerations.
    Every response text that parses to a value other than [null], with a
    [modelKey] that is falsy or converts to a property name, is returned,
    and its [shapes] is the parsed [shapes] as it came (the empty array
    when that is absent or falsy). *)
Theorem generate_returns_unvalidated :
  ToBoolean mk = false \/ (exists k, ToPropertyKey mk = Normal k) ->
  exists result,
    snd (generate3DStructure apiKey ai prompt) = Normal result
    /\ shapes result = or_empty sh.
Proof.
  intros Hconv. rewrite generate_answered.
  destruct Hconv as [Hf | (k & Hc)].
  - rewrite Hf. eexists; split; reflexivity.
  - destruct (ToBoolean mk); [|eexists; split; reflexivity].
    rewrite Hc; cbn [bind]. eexists; split; reflexivity.
Qed.

End Answered.

End Generator.

(** *** The generator on the sample responses *)

Section GeneratorSamples.
Import geminiService.

Lemma key_present : Samples.key <> [].
Proof. discriminate. Qed.

(** C1 (as worded): a recognized key does not empty [shapes].  The
    response that names the duck and carries a box is returned with the
    duck's URL and with the box. *)
Lemma library_key_keeps_parsed_shapes : ~ Contract.library_key_empties_shapes.
Proof.
  intros H.
  destruct (H Samples.key (Samples.answering Samples.duck_and_cube_text)
              (str "a rubber duck") Samples.duck_and_cube_text
              (Samples.parsed_of Samples.duck_and_cube_text)
              key_present eq_refl eq_refl)
    as [Hduck _].
  specialize (Hduck "duck"%string _ (or_introl eq_refl) eq_refl).
  vm_compute in Hduck. discriminate Hduck.
Qed.

(** The duck's URL is set and the box is still there. *)
Lemma generate_model_reference_witness :
  snd (generate3DStructure Samples.key
         (Samples.answering Samples.duck_and_cube_text) (str "a rubber duck"))
  = Normal {| shapes := or_empty (Samples.field Samples.duck_and_cube_text "shapes");
              modelUrl := Some (Own Samples.duck_url) |}.
Proof.
  refine (proj1 (generate_model_reference Samples.key
                   (Samples.answering Samples.duck_and_cube_text)
                   (str "a rubber duck") _
                   Samples.duck_and_cube_text
                   (Samples.parsed_of Samples.duck_and_cube_text)
                   _ (Some (JStr (str "duck"))) _ _ _ _)
                "duck"%string _ _ _ _).
  - discriminate.
  - reflexivity.
  - vm_compute; reflexivity.
  - vm_compute; reflexivity.
  - vm_compute; reflexivity.
  - reflexivity.
  - reflexivity.
  - left; reflexivity.
Defined.

(** C4 (as worded): the response is not validated.  A response whose shape
    has an unknown kind, a string for [position], a number for [color], an
    unknown texture and a metalness of 7.5 is returned as it came. *)
Lemma off_schema_response_is_returned : ~ Contract.response_is_validated.
Proof.
  intros H.
  destruct (H Samples.key (Samples.answering Samples.off_schema_text)
              (str "a pyramid") Samples.off_schema_text
              (Samples.parsed_of Samples.off_schema_text)
              key_present eq_refl eq_refl eq_refl)
    as [e He].
  vm_compute in He. discriminate He.
Qed.

(** The response that breaks the schema is returned. *)
Lemma generate_returns_unvalidated_witness :
  schema (Samples.parsed_of Samples.off_schema_text) = false
  /\ exists result,
       snd (generate3DStructure Samples.key
              (Samples.answering Samples.off_schema_text) (str "a pyramid"))
       = Normal result
       /\ shapes result = or_empty (Samples.field Samples.off_schema_text "shapes").
Proof.
  split; [vm_compute; reflexivity|].
  apply (generate_returns_unvalidated Samples.key
           (Samples.answering Samples.off_schema_text) (str "a pyramid")
           key_present
           Samples.off_schema_text (Samples.parsed_of Samples.off_schema_text)
           (Samples.field Samples.off_schema_text "shapes") None).
  - reflexivity.
  - vm_compute; reflexivity.
  - vm_compute; reflexivity.
  - vm_compute; reflexivity.
  - left; reflexivity.
Defined.

(** C5 (as worded): the generator does not look at the prompt.  With a
    credential and a backend that answers, the empty prompt is sent and its
    answer returned. *)
Lemma empty_prompt_is_generated : ~ Contract.empty_prompt_fails.
Proof.
  intros H.
  destruct (H Samples.key (Samples.answering Samples.empty_scene_text)) as [e He].
  vm_compute in He. discriminate He.
Qed.

End GeneratorSamples.

(** ** The caller *)

Section Caller.
Import geminiService App.

Variables (apiKey : jsstring) (ai : backend) (s : state).

(** C5 (amended): the guard is the caller's.  On a prompt that is empty or
    consists of white space only, [handleGenerate] sends no request to the
    backend and leaves the state as it is; the generator, called with such
    a prompt and a credential, sends it like any other. *)
Theorem handleGenerate_skips_blank_prompt :
  forallb is_white_space (prompt s) = true ->
  handleGenerate apiKey ai s = ([], s)
  /\ (apiKey <> [] ->
      fst (generate3DStructure apiKey ai (prompt s)) = [request_for (prompt s)]).
Proof.
  intros H. split.
  - unfold handleGenerate. now rewrite (trim_blank _ H).
  - apply generate_sends_one.
Qed.

(** C6: when the call to the backend rejects, or resolves without text or
    with empty text, or with text that [JSON.parse] rejects, the generator
    throws the error with the fixed message and returns no result, and
    [handleGenerate] leaves [modelData], the displayed scene, as it was and
    shows that message. *)
Theorem generation_failure_keeps_scene :
  apiKey <> [] ->
  (exists reason, ai (request_for (prompt s)) = Rejects reason)
  \/ ai (request_for (prompt s)) = Resolves None
  \/ ai (request_for (prompt s)) = Resolves (Some [])
  \/ (exists text e, ai (request_for (prompt s)) = Resolves (Some text)
                     /\ JSON_parse text = Throw e) ->
  snd (generate3DStructure apiKey ai (prompt s))
  = Throw (Error (str "Failed to generate 3D model data."))
  /\ modelData (snd (handleGenerate apiKey ai s)) = modelData s
  /\ (trim (prompt s) <> [] ->
      error (snd (handleGenerate apiKey ai s))
      = Some (str "Failed to generate 3D model data.")).
Proof.
  intros Hkey Hfail.
  destruct (attempt_fails ai (prompt s) Hfail) as [e He].
  pose proof (generate_attempt apiKey ai (prompt s) Hkey) as Hgen.
  rewrite He in Hgen.
  split; [now rewrite Hgen|].
  unfold handleGenerate.
  destruct (trim (prompt s)) eqn:Ht.
  - split; [reflexivity | congruence].
  - rewrite Hgen. split; [reflexivity | intros _; reflexivity].
Qed.

End Caller.

Section CallerSamples.
Import geminiService App.

(** A prompt of two spaces is not sent. *)
Lemma handleGenerate_skips_blank_prompt_witness :
  let s := {| prompt := str "  "; isARMode := false; loading := false;
              modelData := None; error := None |} in
  let ai := Samples.answering Samples.empty_scene_text in
  handleGenerate Samples.key ai s = ([], s)
  /\ (Samples.key <> [] ->
      fst (generate3DStructure Samples.key ai (prompt s)) = [request_for (prompt s)]).
Proof.
  intros s ai.
  apply (handleGenerate_skips_blank_prompt Samples.key ai s).
  reflexivity.
Defined.

(** An answer that is not JSON leaves the duck on display. *)
Lemma generation_failure_keeps_scene_witness :
  let shown := {| shapes := JArr []; modelUrl := Some (Own Samples.duck_url) |} in
  let s := {| prompt := str "a castle"; isARMode := false; loading := false;
              modelData := Some shown; error := None |} in
  let ai := Samples.answering (str "not json") in
  snd (generate3DStructure Samples.key ai (prompt s))
  = Throw (Error (str "Failed to generate 3D model data."))
  /\ modelData (snd (handleGenerate Samples.key ai s)) = Some shown
  /\ (trim (prompt s) <> [] ->
      error (snd (handleGenerate Samples.key ai s))
      = Some (str "Failed to generate 3D model data.")).
Proof.
  intros shown s ai.
  apply (generation_failure_keeps_scene Samples.key ai s).
  - discriminate.
  - right; right; right. exists (str "not json"), SyntaxError.
    split; reflexivity.
Defined.

End CallerSamples.

(** ** The scene renderer *)

Section Renderer.
Import GeneratedObject Scene.

Lemma triple_present (v : value) :
  present v = true -> exists t, triple v = Normal t.
Proof.
  destruct v as [[| | | | |]|]; try discriminate; intros _;
    eexists; reflexivity.
Qed.

Lemma triple_array (l : list json) :
  triple (Some (JArr l)) = Normal (components l).
Proof. reflexivity. Qed.

(** *** Textures in the store *)

Lemma texture_of_app (s1 s2 : texture_store) (u : member) :
  texture_of (s1 ++ s2) u
  = match texture_of s1 u with
    | Some t => Some t
    | None => texture_of s2 u
    end.
Proof.
  induction s1 as [|[u' t] s1 IH]; simpl; [reflexivity|].
  destruct (member_eqb u' u); [reflexivity | exact IH].
Qed.

Lemma texture_of_modify (url u : member) (f : Texture -> Texture) (s : texture_store) :
  texture_of (modify url f s) u
  = if member_eqb url u then option_map f (texture_of s u) else texture_of s u.
Proof.
  induction s as [|[u' t] s IH]; simpl.
  - now destruct (member_eqb url u).
  - destruct (member_eqb u' url) eqn:E1; simpl.
    + apply member_eqb_eq in E1; subst u'.
      destruct (member_eqb url u); reflexivity.
    + destruct (member_eqb u' u) eqn:E2; [|exact IH].
      apply member_eqb_eq in E2; subst u'.
      destruct (member_eqb url u) eqn:E3; [|reflexivity].
      apply member_eqb_eq in E3; subst url.
      rewrite member_eqb_refl in E1; discriminate.
Qed.

Lemma keeps_tiled_refl (s : texture_store) : keeps_tiled s s.
Proof. now intros u. Qed.

Lemma keeps_tiled_trans (s1 s2 s3 : texture_store) :
  keeps_tiled s1 s2 -> keeps_tiled s2 s3 -> keeps_tiled s1 s3.
Proof. intros H12 H23 u Hu. auto. Qed.

(** *** The components, one by one *)

Lemma TexturedMaterial_spec (url : member) (c : value) (m r : json) (s : texture_store) :
  exists s',
    TexturedMaterial url c m r s
    = (Normal {| map := Some url; color := c; metalness := m; roughness := r |}, s')
    /\ texture_of s' url = Some tiled
    /\ keeps_tiled s s'.
Proof.
  unfold TexturedMaterial, seq, useTexture, assign, ret.
  destruct (texture_of s url) as [t|] eqn:Ht.
  - eexists; split; [reflexivity|]. split.
    + rewrite !texture_of_modify, member_eqb_refl, Ht. reflexivity.
    + intros u Hu. rewrite !texture_of_modify.
      destruct (member_eqb url u); [|exact Hu]. now rewrite Hu.
  - eexists; split; [reflexivity|]. split.
    + rewrite !texture_of_modify, member_eqb_refl, texture_of_app, Ht.
      simpl. now rewrite member_eqb_refl.
    + intros u Hu. rewrite !texture_of_modify, texture_of_app, Hu.
      now destruct (member_eqb url u).
Qed.

Ltac untextured :=
  eexists; eexists; split; [reflexivity|];
  repeat split; simpl; try reflexivity; try discriminate;
  apply keeps_tiled_refl.

Lemma ShapeMaterial_spec (props : list (jsstring * json)) (s : texture_store) :
  plain_texture (own_property props (str "texture")) = true ->
  exists m s',
    ShapeMaterial (JObj props) s = (Normal m, s')
    /\ color m = own_property props (str "color")
    /\ metalness m = default (own_property props (str "metalness")) (dec 3 (-1))
    /\ roughness m = default (own_property props (str "roughness")) (dec 5 (-1))
    /\ map m = chosen_texture (own_property props (str "texture"))
    /\ (forall url, map m = Some url -> texture_of s' url = Some tiled)
    /\ keeps_tiled s s'.
Proof.
  intros Hplain.
  unfold ShapeMaterial, seq, lift. rewrite !Get_object.
  destruct (own_property props (str "texture")) as [[| | | k | |]|];
    try discriminate Hplain; try untextured.
  destruct k as [|c k]; [untextured|].
  cbn [ToBoolean json_truthy ToPropertyKey ToString chosen_texture].
  destruct (lookup TEXTURE_MAP (c :: k)) as [url|] eqn:Hl; [|untextured].
  rewrite (lookup_truthy _ TEXTURE_MAP_urls _ _ Hl).
  destruct (TexturedMaterial_spec url (own_property props (str "color"))
              (default (own_property props (str "metalness")) (dec 3 (-1)))
              (default (own_property props (str "roughness")) (dec 5 (-1))) s)
    as (s' & -> & Htiled & Hkeep).
  eexists; exists s'. repeat split; auto.
  simpl. intros ? [= <-]. exact Htiled.
Qed.

(** The [switch] answers exactly for the six kinds. *)
Lemma select_spec (v : value) :
  match select v with
  | Some (g, _) => v = Some (JStr (str (primitive_name g)))
  | None => forall k, v = Some (JStr k) -> is_key ShapeType k = false
  end.
Proof.
  destruct v as [[| | | k | |]|]; try (simpl; intros; discriminate).
  unfold select.
  repeat match goal with
  | |- context [if jsstring_eqb k ?lit then _ else _] =>
      let E := fresh "E" in
      destruct (jsstring_eqb k lit) eqn:E;
      [apply jsstring_eqb_eq in E; subst k; reflexivity|]
  end.
  intros k' [= <-]. unfold is_key, ShapeType, existsb.
  rewrite !(jsstring_eqb_sym _ k).
  repeat match goal with
  | H : jsstring_eqb k _ = false |- _ => rewrite H; clear H
  end.
  reflexivity.
Qed.

Lemma select_valid_kind (shape : json) :
  valid_kind shape = match select (kind_of shape) with Some _ => true | None => false end.
Proof.
  unfold valid_kind. pose proof (select_spec (kind_of shape)) as H.
  destruct (select (kind_of shape)) as [[g a]|].
  - rewrite H. now destruct g.
  - destruct (kind_of shape) as [[| | | k | |]|]; try reflexivity.
    now apply H.
Qed.

Lemma ShapeRenderer_spec (props : list (jsstring * json)) (s : texture_store) :
  shape_entry (JObj props) = true ->
  exists r s',
    ShapeRenderer (JObj props) s = (Normal r, s')
    /\ keeps_tiled s s'
    /\ match r with
       | None => valid_kind (JObj props) = false /\ s' = s
       | Some m =>
           valid_kind (JObj props) = true
           /\ kind_of (JObj props) = Some (JStr (str (primitive_name (geometry m))))
           /\ triple (own_property props (str "position")) = Normal (position m)
           /\ triple (own_property props (str "rotation")) = Normal (rotation m)
           /\ triple (own_property props (str "scale")) = Normal (scale m)
           /\ ShapeMaterial (JObj props) s = (Normal (surface m), s')
       end.
Proof.
  intros Hentry. simpl in Hentry.
  apply andb_true_iff in Hentry as [Hentry Hplain].
  apply andb_true_iff in Hentry as [Hentry Hscl].
  apply andb_true_iff in Hentry as [Hpos Hrot].
  destruct (triple_present _ Hpos) as [pos Epos].
  destruct (triple_present _ Hrot) as [rot Erot].
  destruct (triple_present _ Hscl) as [scl Escl].
  unfold ShapeRenderer, seq, lift. rewrite !Get_object.
  rewrite Epos, Erot, Escl.
  pose proof (select_spec (kind_of (JObj props))) as Hsel.
  pose proof (select_valid_kind (JObj props)) as Hvalid.
  simpl kind_of in Hsel, Hvalid.
  destruct (select (own_property props (str "type"))) as [[g a]|].
  - destruct (ShapeMaterial_spec props s Hplain)
      as (m & s' & Hm & _ & _ & _ & _ & _ & Hkeep).
    rewrite Hm. eexists; exists s'. split; [reflexivity|].
    split; [exact Hkeep|]. simpl. repeat split; auto.
  - exists None, s. split; [reflexivity|].
    split; [apply keeps_tiled_refl|]. split; [exact Hvalid | reflexivity].
Qed.

(** *** Steady renderings *)

Lemma steady_ret {A} (refs : A -> list member) (a : A) :
  refs a = [] -> steady refs (ret a).
Proof.
  intros Hrefs. repeat split.
  - intros s. apply keeps_tiled_refl.
  - intros s a' [= <-]. rewrite Hrefs. constructor.
Qed.

Lemma steady_lift {A} (refs : A -> list member) (c : completion A) :
  (forall a, c = Normal a -> refs a = []) -> steady refs (lift c).
Proof.
  intros Hrefs. repeat split.
  - intros s. apply keeps_tiled_refl.
  - intros s a Ha. simpl in Ha. rewrite (Hrefs _ Ha). constructor.
Qed.

Lemma steady_seq {A B} (refsA : A -> list member) (refsB : B -> list member)
    (c : Render A) (k : A -> Render B) :
  steady refsA c -> (forall a, steady refsB (k a)) -> steady refsB (seq c k).
Proof.
  intros (Hc1 & Hc2 & _) Hk. unfold seq. repeat split.
  - intros s1 s2. specialize (Hc1 s1 s2).
    destruct (c s1) as [[a1|e1] s1'], (c s2) as [[a2|e2] s2'];
      simpl in Hc1; try discriminate.
    + injection Hc1 as <-. apply (Hk a1).
    + injection Hc1 as <-. reflexivity.
  - intros s. specialize (Hc2 s).
    destruct (c s) as [[a|e] s']; simpl in *; [|exact Hc2].
    eapply keeps_tiled_trans; [exact Hc2 | apply (Hk a)].
  - intros s b. destruct (c s) as [[a|e] s']; simpl; [|discriminate].
    apply (Hk a).
Qed.

Lemma steady_TexturedMaterial (url : member) (c : value) (m r : json) :
  steady material_refs (TexturedMaterial url c m r).
Proof.
  repeat split.
  - intros s1 s2.
    destruct (TexturedMaterial_spec url c m r s1) as (? & -> & _).
    destruct (TexturedMaterial_spec url c m r s2) as (? & -> & _).
    reflexivity.
  - intros s. destruct (TexturedMaterial_spec url c m r s) as (? & -> & _ & H).
    exact H.
  - intros s a. destruct (TexturedMaterial_spec url c m r s) as (? & -> & H & _).
    intros [= <-]. repeat constructor. exact H.
Qed.

Create HintDb steady.
#[local] Hint Resolve steady_TexturedMaterial : steady.
#[local] Hint Extern 1 (steady _ (ret _)) => now apply steady_ret : steady.
#[local] Hint Extern 1 (steady _ (lift _)) => now apply steady_lift : steady.

(** One step of a rendering whose result refers to no texture. *)
Ltac steady_step :=
  eapply (steady_seq (fun _ => [])); [auto with steady | intros ?].

Lemma steady_ShapeMaterial (shape : json) : steady material_refs (ShapeMaterial shape).
Proof.
  unfold ShapeMaterial. repeat steady_step.
  destruct (ToBoolean _); auto with steady. steady_step.
  destruct (lookup TEXTURE_MAP _) as [url|]; auto with steady.
  destruct (member_truthy (Some url)); auto with steady.
Qed.

Lemma steady_ShapeRenderer (shape : json) : steady mesh_refs (ShapeRenderer shape).
Proof.
  unfold ShapeRenderer. repeat steady_step.
  destruct (select _) as [[g ctor]|]; auto with steady.
  pose proof (steady_ShapeMaterial shape) as (H1 & H2 & H3).
  unfold seq, ret. repeat split.
  - intros s1 s2. specialize (H1 s1 s2).
    destruct (ShapeMaterial shape s1) as [[m1|e1] ?],
             (ShapeMaterial shape s2) as [[m2|e2] ?];
      simpl in *; congruence.
  - intros s. specialize (H2 s).
    now destruct (ShapeMaterial shape s) as [[m|e] ?].
  - intros s r. specialize (H3 s).
    destruct (ShapeMaterial shape s) as [[m|e] ?]; simpl in *; [|discriminate].
    intros [= <-]. now apply H3.
Qed.

Lemma steady_weaken {A} (refs : A -> list member) (c : Render A) :
  steady refs c -> steady (fun _ => []) c.
Proof. intros (H1 & H2 & _). repeat split; auto. Qed.

Lemma render_shapes_cons (shape : json) (rest : list json) (s : texture_store) :
  render_shapes (shape :: rest) s
  = match ShapeRenderer shape s with
    | (Normal r, s1) =>
        match render_shapes rest s1 with
        | (Normal nodes, s2) =>
            (Normal (match r with Some m => Mesh m :: nodes | None => nodes end), s2)
        | (Throw e, s2) => (Throw e, s2)
        end
    | (Throw e, s1) => (Throw e, s1)
    end.
Proof.
  simpl. unfold seq, ret.
  destruct (ShapeRenderer shape s) as [[r|e] s1]; [|reflexivity].
  destruct (render_shapes rest s1) as [[nodes|e] s2]; reflexivity.
Qed.

Lemma render_shapes_independent (l : list json) :
  steady (fun _ => []) (render_shapes l).
Proof.
  induction l as [|shape rest IH]; simpl; auto with steady.
  eapply steady_seq; [apply (steady_weaken _ _ (steady_ShapeRenderer shape))|].
  intros r. eapply steady_seq; [exact IH|].
  intros nodes. auto with steady.
Qed.

Lemma render_shapes_tiled (l : list json) (s : texture_store) (nodes : list node) :
  fst (render_shapes l s) = Normal nodes ->
  Forall (fun u => texture_of (snd (render_shapes l s)) u = Some tiled)
    (nodes_refs nodes).
Proof.
  revert s nodes.
  induction l as [|shape rest IH]; intros s nodes.
  - intros [= <-]. constructor.
  - rewrite render_shapes_cons.
    destruct (steady_ShapeRenderer shape) as (_ & _ & Hshape).
    specialize (Hshape s).
    destruct (ShapeRenderer shape s) as [[r|e] s1]; simpl in *; [|discriminate].
    destruct (render_shapes_independent rest) as (_ & Hkeep & _).
    specialize (Hkeep s1). specialize (IH s1).
    destruct (render_shapes rest s1) as [[nodes'|e] s2]; simpl in *; [|discriminate].
    intros [= <-].
    assert (Hr : Forall (fun u => texture_of s2 u = Some tiled) (mesh_refs r)).
    { eapply Forall_impl; [|apply (Hshape r eq_refl)]. intros u. apply Hkeep. }
    specialize (IH nodes' eq_refl).
    destruct r as [m|]; [|exact IH].
    unfold nodes_refs; simpl. apply Forall_app. split; assumption.
Qed.

Lemma steady_render_shapes (l : list json) : steady nodes_refs (render_shapes l).
Proof.
  destruct (render_shapes_independent l) as (H1 & H2 & _).
  repeat split; auto. intros s nodes. apply render_shapes_tiled.
Qed.

Lemma steady_GeneratedObject (data : GeneratedModelData) :
  steady nodes_refs (GeneratedObject data).
Proof.
  assert (Hmap : steady nodes_refs (map_shapes data)).
  { unfold map_shapes. destruct (shapes data);
      try (apply steady_lift; discriminate). apply steady_render_shapes. }
  unfold GeneratedObject. destruct (modelUrl data) as [src|]; [|exact Hmap].
  destruct (member_truthy (Some src)); auto with steady.
Qed.

Lemma scene_graph_steady (c : Render (list node)) (s1 s2 : texture_store) :
  steady nodes_refs c -> scene_graph (c s1) = scene_graph (c s2).
Proof.
  intros (H1 & _ & H3). unfold scene_graph.
  pose proof (H3 s1) as T1. pose proof (H3 s2) as T2.
  rewrite <- (H1 s1 s2) in *.
  destruct (fst (c s1)) as [nodes|e]; [|reflexivity].
  specialize (T1 nodes eq_refl). specialize (T2 nodes eq_refl).
  f_equal. apply map_ext_in. intros n Hn.
  unfold with_texture. f_equal.
  destruct (node_map n) as [url|] eqn:Hurl; [|reflexivity].
  assert (Hin : In url (nodes_refs nodes)).
  { apply in_flat_map. exists n. split; [exact Hn|].
    destruct n as [|m]; [discriminate|].
    simpl in *. unfold material_refs. rewrite Hurl. now left. }
  rewrite Forall_forall in T1, T2. now rewrite (T1 _ Hin), (T2 _ Hin).
Qed.

(** C8: rendering is a function of the scene description alone.  Two equal
    descriptions give the same scene graph from whatever texture stores the
    two renderings start, the store a first rendering left included: the
    same nodes in the same order, each with the same geometry, the same
    position, rotation and scale, and the same material and texture
    parameters, or the same exception. *)
Theorem render_deterministic
    (data1 data2 : GeneratedModelData) (store1 store2 : texture_store) :
  data1 = data2 ->
  scene_graph (GeneratedObject data1 store1)
  = scene_graph (GeneratedObject data2 store2).
Proof.
  intros <-. apply scene_graph_steady, steady_GeneratedObject.
Qed.

Lemma render_deterministic_witness :
  let data := {| shapes := JArr (Samples.entries Samples.mixed_text);
                 modelUrl := None |} in
  scene_graph (GeneratedObject data [])
  = scene_graph (GeneratedObject data (snd (GeneratedObject data []))).
Proof.
  intros data.
  apply (render_deterministic data data [] (snd (GeneratedObject data []))).
  reflexivity.
Defined.

End Renderer.

(** ** Scenes *)

Section Scenes.
Import geminiService GeneratedObject Scene.

(** A URL that the generator sets is truthy, so the renderer takes it. *)
Lemma generated_modelUrl_truthy
    (apiKey : jsstring) (ai : backend) (prompt : jsstring)
    (result : GeneratedModelData) (src : member) :
  snd (generate3DStructure apiKey ai prompt) = Normal result ->
  modelUrl result = Some src ->
  member_truthy (Some src) = true.
Proof.
  unfold generate3DStructure.
  destruct apiKey; cbn [snd]; [discriminate|].
  unfold attempt.
  destruct (ai _) as [reason|[text|]]; cbn [bind]; try discriminate.
  destruct text; [discriminate|].
  unfold process_response.
  destruct (JSON_parse _) as [parsed|]; cbn [bind]; [|discriminate].
  destruct (Get (Some parsed) "shapes") as [sh|]; cbn [bind]; [|discriminate].
  destruct (Get (Some parsed) "modelKey") as [mk|]; cbn [bind]; [|discriminate].
  destruct (ToBoolean mk); [|intros [= <-]; simpl; discriminate].
  destruct (ToPropertyKey mk) as [k|]; cbn [bind]; [|discriminate].
  destruct (member_truthy (lookup ASSET_LIBRARY k)) eqn:Ht;
    [|intros [= <-]; simpl; discriminate].
  intros [= <-]; cbn [modelUrl]. intros H. rewrite <- H. exact Ht.
Qed.

(** C2: with [modelUrl] set to a truthy value, the component renders one
    node, the model of that URL fitted by [Resize] to the scale 2.5, and
    the store is untouched; [shapes] is not read, whatever it holds. *)
Theorem model_reference_takes_precedence
    (sh : json) (src : member) (store : texture_store) :
  member_truthy (Some src) = true ->
  GeneratedObject {| shapes := sh; modelUrl := Some src |} store
  = (Normal [Model src (dec 25 (-1))], store).
Proof.
  intros H. unfold GeneratedObject. cbn [modelUrl]. now rewrite H.
Qed.

(** The duck is rendered alone, the three shapes beside it are not. *)
Lemma model_reference_takes_precedence_witness :
  GeneratedObject {| shapes := JArr (Samples.entries Samples.mixed_text);
                     modelUrl := Some (Own Samples.duck_url) |} []
  = (Normal [Model (Own Samples.duck_url) (dec 25 (-1))], []).
Proof.
  apply (model_reference_takes_precedence
           (JArr (Samples.entries Samples.mixed_text)) (Own Samples.duck_url) []).
  reflexivity.
Defined.

Lemma GeneratedObject_shapes (l : list json) (url : option member) :
  member_truthy url = false ->
  GeneratedObject {| shapes := JArr l; modelUrl := url |} = render_shapes l.
Proof.
  intros H. unfold GeneratedObject, map_shapes. cbn [modelUrl shapes].
  destruct url as [src|]; [now rewrite H | reflexivity].
Qed.

Lemma shape_entry_object (shape : json) :
  shape_entry shape = true -> exists props, shape = JObj props.
Proof. destruct shape; try discriminate. eauto. Qed.

Lemma render_shapes_spec (l : list json) (s : texture_store) :
  Forall (fun shape => shape_entry shape = true) l ->
  exists nodes s',
    render_shapes l s = (Normal nodes, s')
    /\ Forall2 renders (filter valid_kind l) nodes.
Proof.
  intros Hall. revert s.
  induction Hall as [|shape rest Hentry _ IH]; intros s.
  - exists [], s. split; [reflexivity | constructor].
  - destruct (shape_entry_object _ Hentry) as [props ->].
    destruct (ShapeRenderer_spec props s Hentry) as (r & s1 & Hr & _ & Hcase).
    destruct (IH s1) as (nodes & s2 & Hrest & Hnodes).
    rewrite render_shapes_cons, Hr, Hrest. simpl filter.
    destruct r as [m|].
    + destruct Hcase as (Hvalid & Hkind & _). rewrite Hvalid.
      eexists; exists s2. split; [reflexivity|].
      constructor; [now exists m | exact Hnodes].
    + destruct Hcase as (Hvalid & _). rewrite Hvalid.
      exists nodes, s2. split; [reflexivity | exact Hnodes].
Qed.

Lemma filter_all {A} (f : A -> bool) (l : list A) :
  forallb f l = true -> filter f l = l.
Proof.
  induction l as [|a l IH]; simpl; [reflexivity|].
  intros H. apply andb_true_iff in H as [-> Hl]. now rewrite IH.
Qed.

(** C3: a scene without a model URL whose [shapes] holds [N] shape entries
    renders without an exception to one mesh per entry whose kind is one of
    the six, in order and of that kind: [N] nodes when every kind is one
    of the six.  An entry of any other kind renders to nothing, throws
    nothing and leaves the store alone. *)
Theorem render_one_node_per_valid_kind
    (l : list json) (url : option member) (store : texture_store) :
  member_truthy url = false ->
  Forall (fun shape => shape_entry shape = true) l ->
  (exists nodes store',
      GeneratedObject {| shapes := JArr l; modelUrl := url |} store
      = (Normal nodes, store')
      /\ Forall2 renders (filter valid_kind l) nodes
      /\ List.length nodes = List.length (filter valid_kind l)
      /\ (forallb valid_kind l = true -> List.length nodes = List.length l))
  /\ (forall shape s,
         In shape l -> valid_kind shape = false ->
         ShapeRenderer shape s = (Normal None, s)).
Proof.
  intros Hurl Hall. split.
  - rewrite (GeneratedObject_shapes _ _ Hurl).
    destruct (render_shapes_spec l store Hall) as (nodes & s' & Hr & Hnodes).
    exists nodes, s'. split; [exact Hr|]. split; [exact Hnodes|].
    pose proof (Forall2_length Hnodes) as Hlen. split; [now symmetry|].
    intros Hvalid. now rewrite <- Hlen, (filter_all _ _ Hvalid).
  - intros shape s Hin Hinvalid.
    rewrite Forall_forall in Hall. specialize (Hall _ Hin).
    destruct (shape_entry_object _ Hall) as [props ->].
    destruct (ShapeRenderer_spec props s Hall) as (r & s1 & Hr & _ & Hcase).
    destruct r as [m|]; [destruct Hcase as (Hv & _); congruence|].
    destruct Hcase as (_ & ->). exact Hr.
Qed.

(** Of a box, an entry of unknown kind and a sphere, two are rendered. *)
Lemma render_one_node_per_valid_kind_witness :
  exists nodes store',
    GeneratedObject {| shapes := JArr (Samples.entries Samples.mixed_text);
                       modelUrl := None |} []
    = (Normal nodes, store')
    /\ Forall2 renders (filter valid_kind (Samples.entries Samples.mixed_text)) nodes
    /\ List.length nodes = 2%nat
    /\ (forallb valid_kind (Samples.entries Samples.mixed_text) = true ->
        List.length nodes = List.length (Samples.entries Samples.mixed_text)).
Proof.
  apply (render_one_node_per_valid_kind
           (Samples.entries Samples.mixed_text) None []).
  - reflexivity.
  - vm_compute. repeat constructor.
Defined.

End Scenes.

(** ** Materials and transforms *)

Section Materials.
Import geminiService GeneratedObject Scene.

(** The enumeration of the schema names the keys of the texture table. *)
Lemma texture_names_are_keys : texture_names = List.map fst TEXTURE_MAP.
Proof. reflexivity. Qed.

(** The material is textured from the texture table exactly when the
    texture field is one of the table's six keys. *)
Lemma chosen_texture_own (v : value) (url : jsstring) :
  chosen_texture v = Some (Own url)
  <-> exists name u, In (name, u) TEXTURE_MAP
                     /\ v = Some (JStr (str name)) /\ url = str u.
Proof.
  split.
  - destruct v as [[| | | [|c k] | |]|]; simpl; try discriminate.
    intros H. destruct (lookup_own _ _ _ H) as (name & u & Hin & Hk & Hu).
    exists name, u. rewrite Hk. auto.
  - intros (name & u & Hin & -> & ->).
    pose proof (TEXTURE_MAP_lookup _ _ Hin) as Hl.
    unfold chosen_texture. destruct (str name) eqn:E; [|exact Hl].
    unfold TEXTURE_MAP in Hin; simpl in Hin.
    repeat destruct Hin as [Hin|Hin]; try contradiction;
      injection Hin as <- <-; discriminate E.
Qed.

(** Any other choice is a member that the table inherits. *)
Lemma chosen_texture_inherited (v : value) (name : jsstring) :
  chosen_texture v = Some (Inherited name) ->
  v = Some (JStr name) /\ is_key Object_prototype name = true.
Proof.
  destruct v as [[| | | [|c k] | |]|]; simpl; try discriminate.
  unfold lookup. destruct (own_property _ _); [discriminate|].
  destruct (is_key Object_prototype (c :: k)) eqn:E; [|discriminate].
  intros [= <-]. now split.
Qed.

(** C7: the failing input.  A box whose texture is [constructor], which
    is none of the six texture names, gets the textured material: the
    table read finds the member that the table inherits from
    [Object.prototype], and that member is passed on as the URL.  Colour
    and the two defaults are as the claim has them. *)
Theorem inherited_name_selects_textured_material :
  is_key texture_names (str "constructor") = false
  /\ fst (ShapeMaterial (Samples.parsed_of Samples.constructor_box_text) [])
     = Normal {| map := Some (Inherited (str "constructor"));
                 color := Some (JStr (str "#ff0000"));
                 metalness := JNum (dec 3 (-1));
                 roughness := JNum (dec 5 (-1)) |}.
Proof. split; vm_compute; reflexivity. Qed.

End Materials.

(** ** From the response to the material *)

Section PassThrough.
Import geminiService GeneratedObject Scene.

Variables (apiKey : jsstring) (ai : backend) (prompt text : jsstring).
Variables (parsed : json) (mk : value) (l : list json).

Hypothesis credential : apiKey <> [].
Hypothesis answered : ai (request_for prompt) = Resolves (Some text).
Hypothesis parses : JSON_parse text = Normal parsed.
Hypothesis reads_shapes : Get (Some parsed) "shapes" = Normal (Some (JArr l)).
Hypothesis reads_modelKey : Get (Some parsed) "modelKey" = Normal mk.
Hypothesis converts : ToBoolean mk = false \/ (exists k, ToPropertyKey mk = Normal k).

(** C10: the generator returns the parsed [shapes] array as it is, the
    same entries in the same order, and the material takes each entry's
    colour, metalness and roughness as they stand, whatever their value,
    and looks its texture string up as it stands. *)
Theorem shape_fields_pass_through :
  (exists result,
      snd (generate3DStructure apiKey ai prompt) = Normal result
      /\ shapes result = JArr l)
  /\ (forall props store,
         In (JObj props) l ->
         plain_texture (own_property props (str "texture")) = true ->
         exists m store',
           ShapeMaterial (JObj props) store = (Normal m, store')
           /\ color m = own_property props (str "color")
           /\ (forall j, own_property props (str "metalness") = Some j ->
                         metalness m = j)
           /\ (forall j, own_property props (str "roughness") = Some j ->
                         roughness m = j)
           /\ (forall k, own_property props (str "texture") = Some (JStr k) ->
                         k <> [] -> map m = lookup TEXTURE_MAP k)).
Proof.
  split.
  - rewrite (generate_answered _ _ _ credential _ _ _ _
               answered parses reads_shapes reads_modelKey).
    destruct converts as [Hf | (k & Hc)].
    + rewrite Hf. eexists; split; reflexivity.
    + destruct (ToBoolean mk); [|eexists; split; reflexivity].
      rewrite Hc; cbn [bind]. eexists; split; reflexivity.
  - intros props store _ Hplain.
    destruct (ShapeMaterial_spec props store Hplain)
      as (m & s' & Hm & Hcolor & Hmetal & Hrough & Hmap & _).
    exists m, s'. split; [exact Hm|]. split; [exact Hcolor|].
    repeat split.
    + intros j Hj. now rewrite Hmetal, Hj.
    + intros j Hj. now rewrite Hrough, Hj.
    + intros k Hk Hne. rewrite Hmap, Hk.
      destruct k; [congruence | reflexivity].
Qed.

End PassThrough.

Section SampleScenes.
Import geminiService GeneratedObject Scene.

(** A metalness of 7.5, a roughness of -2 and the texture [lava] reach the
    material as they are. *)
Lemma shape_fields_pass_through_witness :
  (exists result,
      snd (generate3DStructure Samples.key
             (Samples.answering Samples.out_of_range_text) (str "a hot box"))
      = Normal result
      /\ shapes result = JArr (Samples.entries Samples.out_of_range_text))
  /\ (forall props store,
         In (JObj props) (Samples.entries Samples.out_of_range_text) ->
         plain_texture (own_property props (str "texture")) = true ->
         exists m store',
           ShapeMaterial (JObj props) store = (Normal m, store')
           /\ color m = own_property props (str "color")
           /\ (forall j, own_property props (str "metalness") = Some j ->
                         metalness m = j)
           /\ (forall j, own_property props (str "roughness") = Some j ->
                         roughness m = j)
           /\ (forall k, own_property props (str "texture") = Some (JStr k) ->
                         k <> [] -> map m = lookup TEXTURE_MAP k)).
Proof.
  apply (shape_fields_pass_through Samples.key
           (Samples.answering Samples.out_of_range_text) (str "a hot box")
           Samples.out_of_range_text
           (Samples.parsed_of Samples.out_of_range_text) None
           (Samples.entries Samples.out_of_range_text)).
  - discriminate.
  - reflexivity.
  - vm_compute; reflexivity.
  - vm_compute; reflexivity.
  - vm_compute; reflexivity.
  - left; reflexivity.
Defined.

(** The scenarios of the specification. *)

Example rubber_duck_scenario :
  let data := {| shapes := JArr []; modelUrl := Some (Own Samples.duck_url) |} in
  snd (generate3DStructure Samples.key
         (Samples.answering (Samples.quoted "{'modelKey':'duck','shapes':[]}"))
         (str "a rubber duck"))
  = Normal data
  /\ GeneratedObject data [] = (Normal [Model (Own Samples.duck_url) (dec 25 (-1))], []).
Proof. split; vm_compute; reflexivity. Qed.

Example red_cube_scenario :
  let data := {| shapes := JArr (Samples.entries Samples.red_cube_text);
                 modelUrl := None |} in
  snd (generate3DStructure Samples.key
         (Samples.answering Samples.red_cube_text) (str "a small red cube"))
  = Normal data
  /\ GeneratedObject data []
     = (Normal
          [Mesh {| geometry := Box;
                   args := [dec 1 0; dec 1 0; dec 1 0];
                   position := (Some (JNum (dec 0 0)), Some (JNum (dec 0 0)),
                                Some (JNum (dec 0 0)));
                   rotation := (Some (JNum (dec 0 0)), Some (JNum (dec 0 0)),
                                Some (JNum (dec 0 0)));
                   scale := (Some (JNum (dec 5 (-1))), Some (JNum (dec 5 (-1))),
                             Some (JNum (dec 5 (-1))));
                   surface := {| map := None;
                                 color := Some (JStr (str "#ff0000"));
                                 metalness := JNum (dec 3 (-1));
                                 roughness := JNum (dec 5 (-1)) |} |}],
        []).
Proof. split; vm_compute; reflexivity. Qed.

Example lava_scenario :
  List.map node_map
    (match fst (GeneratedObject
                  {| shapes := JArr (Samples.entries Samples.out_of_range_text);
                     modelUrl := None |} []) with
     | Normal nodes => nodes
     | Throw _ => []
     end)
  = [None].
Proof. vm_compute; reflexivity. Qed.

Example wooden_sphere_is_tiled :
  scene_graph (GeneratedObject
                 {| shapes := JArr (Samples.entries Samples.mixed_text);
                    modelUrl := None |} [])
  = Normal
      (List.map
         (fun n => (n, option_map (fun _ => tiled) (node_map n)))
         (match fst (GeneratedObject
                       {| shapes := JArr (Samples.entries Samples.mixed_text);
                          modelUrl := None |} []) with
          | Normal nodes => nodes
          | Throw _ => []
          end)).
Proof. vm_compute; reflexivity. Qed.

(** A vector that is absent altogether is another matter: indexing
    [undefined] throws, and the exception ends the rendering of the scene. *)
Example absent_scale_throws :
  fst (ShapeRenderer (Samples.parsed_of Samples.unscaled_box_text) [])
  = Throw TypeError
  /\ fst (GeneratedObject
            {| shapes := JArr (Samples.entries Samples.red_cube_text
                               ++ [Samples.parsed_of Samples.unscaled_box_text]);
               modelUrl := None |} [])
     = Throw TypeError.
Proof. split; vm_compute; reflexivity. Qed.

Example numbers_as_written :
  number_to_string (dec 3 (-1)) = str "0.3"
  /\ number_to_string (dec 25 (-1)) = str "2.5"
  /\ JSON_parse (str "1e21") = Normal (JNum (dec 1 21))
  /\ number_to_string (dec 1 21) = str "1e+21".
Proof. repeat split; vm_compute; reflexivity. Qed.

End SampleScenes.

(** ** More of the component: credential, outcomes, events *)

Section Handler.
Import geminiService App.

Variables (apiKey : jsstring) (ai : backend).

(** The two errors the generator can throw. *)
Lemma generate_failure_cases (prompt : jsstring) (e : exception) :
  snd (generate3DStructure apiKey ai prompt) = Throw e ->
  (apiKey = []
   /\ e = Error (str "API Key is missing. Please set REACT_APP_API_KEY or check your environment."))
  \/ (apiKey <> [] /\ e = failed).
Proof.
  unfold generate3DStructure. destruct apiKey; cbn [snd].
  - intros [= <-]. now left.
  - destruct (attempt ai _); intros [= <-]. right. split; [discriminate | reflexivity].
Qed.

Lemma handleGenerate_nonblank (s : state) :
  trim (prompt s) <> [] ->
  handleGenerate apiKey ai s
  = (fst (generate3DStructure apiKey ai (prompt s)),
     setLoading false
       match snd (generate3DStructure apiKey ai (prompt s)) with
       | Normal data => setModelData data (setError None (setLoading true s))
       | Throw err =>
           setError (Some (or_default (message err)))
             (setError None (setLoading true s))
       end).
Proof.
  intros H. unfold handleGenerate.
  destruct (trim (prompt s)); [congruence|].
  now destruct (generate3DStructure apiKey ai (prompt s)).
Qed.

(** X1: without a credential nothing is sent: the handler reports the missing
    key, and the scene on display stays. *)
Theorem missing_credential_is_reported (s : state) :
  trim (prompt s) <> [] ->
  handleGenerate [] ai s
  = ([], {| prompt := prompt s; isARMode := isARMode s; loading := false;
            modelData := modelData s;
            error := Some (str "API Key is missing. Please set REACT_APP_API_KEY or check your environment.") |}).
Proof.
  intros H. unfold handleGenerate.
  destruct (trim (prompt s)); [congruence | reflexivity].
Qed.

(** X2: one run of the handler sends at most one request, none without a
    credential or on a blank prompt, and the request carries the prompt as
    it was typed, white space included. *)
Theorem handleGenerate_sends_prompt_as_typed (s : state) :
  fst (handleGenerate apiKey ai s)
  = match apiKey, trim (prompt s) with
    | _ :: _, _ :: _ =>
        [ {| model := modelName; contents := prompt s;
             instructed_keys := assetKeys |} ]
    | _, _ => []
    end.
Proof.
  unfold handleGenerate.
  destruct (trim (prompt s)) eqn:Ht; [now destruct apiKey|].
  unfold generate3DStructure. now destruct apiKey.
Qed.

(** X3: a generation that succeeds replaces the scene by its result, clears
    the error and ends the loading; what was on display before plays no
    part. *)
Theorem successful_generation_replaces_scene
    (s : state) (result : GeneratedModelData) :
  trim (prompt s) <> [] ->
  snd (generate3DStructure apiKey ai (prompt s)) = Normal result ->
  snd (handleGenerate apiKey ai s)
  = {| prompt := prompt s; isARMode := isARMode s; loading := false;
       modelData := Some result; error := None |}.
Proof.
  intros H Hgen. now rewrite (handleGenerate_nonblank _ H), Hgen.
Qed.

(** X4: a generation that fails, for whatever reason, leaves the scene, ends
    the loading and shows one of two fixed messages in the banner; the
    fallback text of the handler is never shown. *)
Theorem failed_generation_shows_fixed_message (s : state) (e : exception) :
  trim (prompt s) <> [] ->
  snd (generate3DStructure apiKey ai (prompt s)) = Throw e ->
  exists m,
    (m = str "API Key is missing. Please set REACT_APP_API_KEY or check your environment."
     \/ m = str "Failed to generate 3D model data.")
    /\ snd (handleGenerate apiKey ai s)
       = {| prompt := prompt s; isARMode := isARMode s; loading := false;
            modelData := modelData s; error := Some m |}
    /\ banner (snd (handleGenerate apiKey ai s)) = Some m.
Proof.
  intros H Hgen. rewrite (handleGenerate_nonblank _ H), Hgen.
  destruct (generate_failure_cases _ _ Hgen) as [[_ ->] | [_ ->]];
    eexists; (split; [|split; reflexivity]); [now left | now right].
Qed.

(** X5: the button is disabled while a generation is loading, the Enter key is
    not: pressed in the input it starts a generation all the same.  When
    nothing is loading the two do the same. *)
Theorem enter_key_is_not_guarded_by_loading (s : state) :
  apiKey <> [] ->
  trim (prompt s) <> [] ->
  (loading s = true ->
   dispatch apiKey ai ClickGenerate s = ([], s)
   /\ fst (dispatch apiKey ai (KeyDown (str "Enter")) s) = [request_for (prompt s)])
  /\ (loading s = false ->
      dispatch apiKey ai ClickGenerate s
      = dispatch apiKey ai (KeyDown (str "Enter")) s).
Proof.
  intros Hkey Hprompt. unfold dispatch, disabled. cbn [jsstring_eqb].
  replace (jsstring_eqb (str "Enter") (str "Enter")) with true by reflexivity.
  split; intros ->; cbn [orb].
  - split; [reflexivity|].
    rewrite (handleGenerate_nonblank _ Hprompt); cbn [fst].
    now apply generate_sends_one.
  - destruct (trim (prompt s)); [congruence | reflexivity].
Qed.

(** X6: switching the AR mode twice changes nothing, and the mode plays no
    part in a generation: the handler sends the same and ends in the same
    state, but for the mode. *)
Theorem toggleAR_commutes_with_generation (s : state) :
  toggleAR (toggleAR s) = s
  /\ handleGenerate apiKey ai (toggleAR s)
     = (fst (handleGenerate apiKey ai s), toggleAR (snd (handleGenerate apiKey ai s))).
Proof.
  split.
  - destruct s as [p ar l d e]. unfold toggleAR, setIsARMode; simpl.
    now rewrite negb_involutive.
  - unfold handleGenerate. cbn [toggleAR setIsARMode prompt].
    destruct (trim (prompt s)); [reflexivity|].
    destruct (generate3DStructure apiKey ai (prompt s)) as [sent [data|err]];
      reflexivity.
Qed.

(** X7: the scene on display is at all times the one the run started with or
    a whole result of the generator: events never merge, trim or alter it.
    And no run sends more requests than it has key presses and clicks on
    the generate button. *)
Theorem scene_is_initial_or_generated (events : list event) (s : state) :
  (modelData (snd (run apiKey ai events s)) = modelData s
   \/ exists prompt result,
        snd (generate3DStructure apiKey ai prompt) = Normal result
        /\ modelData (snd (run apiKey ai events s)) = Some result)
  /\ (List.length (fst (run apiKey ai events s))
      <= List.length
           (filter (fun e => match e with
                             | KeyDown _ | ClickGenerate => true
                             | _ => false
                             end) events))%nat.
Proof.
  revert s. induction events as [|e rest IH]; intros s.
  - split; [now left | apply Nat.le_refl].
  - cbn [run].
    assert (Hstep :
      (modelData (snd (dispatch apiKey ai e s)) = modelData s
       \/ exists prompt result,
            snd (generate3DStructure apiKey ai prompt) = Normal result
            /\ modelData (snd (dispatch apiKey ai e s)) = Some result)
      /\ (List.length (fst (dispatch apiKey ai e s))
          <= match e with KeyDown _ | ClickGenerate => 1 | _ => 0 end)%nat).
    { assert (Hgen :
        (modelData (snd (handleGenerate apiKey ai s)) = modelData s
         \/ exists prompt result,
              snd (generate3DStructure apiKey ai prompt) = Normal result
              /\ modelData (snd (handleGenerate apiKey ai s)) = Some result)
        /\ (List.length (fst (handleGenerate apiKey ai s)) <= 1)%nat).
      { split.
        - unfold handleGenerate.
          destruct (trim (prompt s)); [now left|].
          destruct (generate3DStructure apiKey ai (prompt s))
            as [sent [data|err]] eqn:Hg; [|now left].
          right. exists (prompt s), data. now rewrite Hg.
        - rewrite handleGenerate_sends_prompt_as_typed.
          destruct apiKey, (trim (prompt s)); simpl; auto. }
      destruct e; cbn [dispatch].
      - split; [now left | apply Nat.le_refl].
      - destruct (jsstring_eqb key (str "Enter")); [exact Hgen|].
        split; [now left | apply Nat.le_0_l].
      - destruct (disabled s); [|exact Hgen].
        split; [now left | apply Nat.le_0_l].
      - split; [now left | apply Nat.le_refl]. }
    destruct (dispatch apiKey ai e s) as [sent s1]; cbn [fst snd] in Hstep.
    specialize (IH s1).
    destruct (run apiKey ai rest s1) as [sent' s2]; cbn [fst snd] in *.
    destruct Hstep as [Hscene Hsent], IH as [IHscene IHsent]. split.
    + destruct IHscene as [Hsame | Hnew]; [|now right].
      rewrite Hsame. exact Hscene.
    + rewrite length_app.
      destruct e; cbn [filter List.length] in *; lia.
Qed.

End Handler.

(** ** More of the generator: what a response turns into on screen *)

Section Responses.
Import geminiService GeneratedObject Scene.

Lemma or_empty_falsy (v : value) : ToBoolean v = false -> or_empty v = JArr [].
Proof.
  destruct v as [j|]; [|reflexivity]. simpl. now intros ->.
Qed.

Lemma or_empty_truthy (j : json) : json_truthy j = true -> or_empty (Some j) = j.
Proof. simpl. now intros ->. Qed.

(** A shape that meets the schema is a shape entry of a known kind. *)
Lemma shape_schema_entry (j : json) :
  shape_schema j = true -> shape_entry j = true /\ valid_kind j = true.
Proof.
  destruct j as [| | | | |props]; try discriminate.
  unfold shape_schema, shape_entry, valid_kind, kind_of.
  intros H. repeat (apply andb_true_iff in H as [H ?]).
  destruct (own_property props (str "type")) as [[| | | k | |]|];
    try discriminate.
  assert (Hvec : forall v, number_array v = true -> present v = true).
  { intros [[| | | | l |]|]; simpl; try discriminate; reflexivity. }
  rewrite !Hvec by assumption.
  split; [|assumption].
  destruct (own_property props (str "texture")) as [[| | | | |]|];
    try discriminate; reflexivity.
Qed.

(** The table read behind a URL that the generator sets. *)
Lemma generated_modelUrl_lookup
    (apiKey : jsstring) (ai : backend) (prompt : jsstring)
    (result : GeneratedModelData) (src : member) :
  snd (generate3DStructure apiKey ai prompt) = Normal result ->
  modelUrl result = Some src ->
  exists k, lookup ASSET_LIBRARY k = Some src.
Proof.
  unfold generate3DStructure.
  destruct apiKey; cbn [snd]; [discriminate|].
  unfold attempt.
  destruct (ai _) as [reason|[text|]]; cbn [bind]; try discriminate.
  destruct text; [discriminate|].
  unfold process_response.
  destruct (JSON_parse _) as [parsed|]; cbn [bind]; [|discriminate].
  destruct (Get (Some parsed) "shapes") as [sh|]; cbn [bind]; [|discriminate].
  destruct (Get (Some parsed) "modelKey") as [mk|]; cbn [bind]; [|discriminate].
  destruct (ToBoolean mk); [|intros [= <-]; simpl; discriminate].
  destruct (ToPropertyKey mk) as [k|]; cbn [bind]; [|discriminate].
  destruct (member_truthy (lookup ASSET_LIBRARY k)) eqn:Ht;
    [|intros [= <-]; simpl; discriminate].
  intros [= <-]; cbn [modelUrl]. intros H. now exists k.
Qed.

(** X8: whenever the generator sets a URL, the renderer shows that model and
    nothing else, and the URL is one of the asset library, or else a
    member the library object inherits. *)
Theorem generated_model_is_rendered_alone
    (apiKey : jsstring) (ai : backend) (prompt : jsstring)
    (result : GeneratedModelData) (src : member) :
  snd (generate3DStructure apiKey ai prompt) = Normal result ->
  modelUrl result = Some src ->
  (forall store,
      GeneratedObject result store = (Normal [Model src (dec 25 (-1))], store))
  /\ ((exists name url, In (name, url) ASSET_LIBRARY /\ src = Own (str url))
      \/ (exists name, src = Inherited name
                       /\ is_key Object_prototype name = true)).
Proof.
  intros Hgen Hurl.
  destruct (generated_modelUrl_lookup _ _ _ _ _ Hgen Hurl) as [k Hk].
  split.
  - intros store. unfold GeneratedObject. rewrite Hurl.
    now rewrite (lookup_truthy _ ASSET_LIBRARY_urls _ _ Hk).
  - destruct src as [url|name].
    + left. destruct (lookup_own _ _ _ Hk) as (name & u & Hin & _ & ->).
      now exists name, u.
    + right. exists name. split; [reflexivity|].
      unfold lookup in Hk. destruct (own_property _ k); [discriminate|].
      destruct (is_key Object_prototype k) eqn:E; [|discriminate].
      now injection Hk as <-.
Qed.

Variables (apiKey : jsstring) (ai : backend) (prompt text : jsstring).
Variable parsed : json.

Hypothesis credential : apiKey <> [].
Hypothesis answered : ai (request_for prompt) = Resolves (Some text).
Hypothesis parses : JSON_parse text = Normal parsed.

(** X9: the JSON value [null] is the one response that parses and still
    fails.  Any other response without a truthy [shapes] and without a
    truthy [modelKey], a number, a string, a boolean or an array among
    them, is the empty scene, which renders to nothing and throws
    nothing. *)
Theorem response_without_shapes_is_empty_scene :
  (parsed = JNull ->
   snd (generate3DStructure apiKey ai prompt) = Throw failed)
  /\ (forall sh mk,
         Get (Some parsed) "shapes" = Normal sh ->
         Get (Some parsed) "modelKey" = Normal mk ->
         ToBoolean sh = false ->
         ToBoolean mk = false ->
         snd (generate3DStructure apiKey ai prompt)
         = Normal {| shapes := JArr []; modelUrl := None |}
         /\ forall store,
              GeneratedObject {| shapes := JArr []; modelUrl := None |} store
              = (Normal [], store)).
Proof.
  split.
  - intros Hnull.
    rewrite (generate_attempt _ _ _ credential); cbn [snd]. unfold attempt.
    rewrite answered; cbn [bind].
    pose proof (parsed_text_nonempty _ _ parses) as Hne.
    destruct text as [|c rest] eqn:Etext; [congruence|]. rewrite <- Etext in *.
    unfold process_response. rewrite parses, Hnull. reflexivity.
  - intros sh mk Hs Hk Hsh Hmk.
    rewrite (generate_answered _ _ _ credential _ _ _ _ answered parses Hs Hk).
    rewrite Hmk, (or_empty_falsy _ Hsh). split; reflexivity.
Qed.

(** X10: a truthy [shapes] that is no array, a string or an object say, is
    returned by the generator as it is, and the renderer then throws a
    [TypeError] on it without touching the store. *)
Theorem non_array_shapes_break_rendering (j : json) (mk : value) :
  Get (Some parsed) "shapes" = Normal (Some j) ->
  Get (Some parsed) "modelKey" = Normal mk ->
  json_truthy j = true ->
  (forall l, j <> JArr l) ->
  ToBoolean mk = false ->
  snd (generate3DStructure apiKey ai prompt)
  = Normal {| shapes := j; modelUrl := None |}
  /\ forall store,
       GeneratedObject {| shapes := j; modelUrl := None |} store
       = (Throw TypeError, store).
Proof.
  intros Hs Hk Hj Harr Hmk.
  rewrite (generate_answered _ _ _ credential _ _ _ _ answered parses Hs Hk).
  rewrite Hmk, (or_empty_truthy _ Hj). split; [reflexivity|].
  intros store. unfold GeneratedObject, map_shapes; cbn [modelUrl shapes].
  destruct j; try reflexivity. now elim (Harr elements).
Qed.

(** X11: a response that meets the schema is returned and renders in full: the
    model alone when [modelKey] sets a URL, otherwise one mesh for each
    shape, in order and of its kind. *)
Theorem schema_conforming_response_renders :
  schema parsed = true ->
  exists result l,
    Get (Some parsed) "shapes" = Normal (Some (JArr l))
    /\ snd (generate3DStructure apiKey ai prompt) = Normal result
    /\ shapes result = JArr l
    /\ forall store,
         exists nodes store',
           GeneratedObject result store = (Normal nodes, store')
           /\ match modelUrl result with
              | Some src => nodes = [Model src (dec 25 (-1))]
              | None => Forall2 renders l nodes
              end.
Proof.
  intros Hschema.
  destruct parsed as [| | | | |props] eqn:Eparsed; try discriminate.
  unfold schema in Hschema. apply andb_true_iff in Hschema as [Hkey Hshapes].
  destruct (own_property props (str "shapes")) as [[| | | |l|]|] eqn:Hs;
    try discriminate.
  assert (Hall : Forall (fun shape => shape_entry shape = true) l
                 /\ forallb valid_kind l = true).
  { clear -Hshapes. induction l as [|a l IH]; [split; [constructor | reflexivity]|].
    simpl in Hshapes. apply andb_true_iff in Hshapes as [Ha Hl].
    destruct (shape_schema_entry _ Ha) as [He Hv], (IH Hl) as [IHe IHv].
    split; [now constructor | simpl; now rewrite Hv]. }
  destruct Hall as [Hentries Hvalid].
  assert (Hrender : forall store,
             exists nodes store',
               GeneratedObject {| shapes := JArr l; modelUrl := None |} store
               = (Normal nodes, store')
               /\ Forall2 renders l nodes).
  { intros store. rewrite (GeneratedObject_shapes _ None eq_refl).
    destruct (render_shapes_spec l store Hentries) as (nodes & s' & Hr & Hn).
    rewrite (filter_all _ _ Hvalid) in Hn. now exists nodes, s'. }
  pose proof (generate_answered _ _ _ credential _ _ _ _ answered parses
                (Get_object props "shapes") (Get_object props "modelKey")) as Hgen.
  rewrite Hs in Hgen. cbn [or_empty json_truthy] in Hgen.
  set (mk := own_property props (str "modelKey")) in *.
  assert (Hmk : ToBoolean mk = false \/ exists c k, mk = Some (JStr (c :: k))).
  { destruct mk as [[| | |[|c k]| |]|]; try discriminate;
      try (now left). right. now exists c, k. }
  destruct Hmk as [Hfalsy | (c & k & Hstr)].
  - rewrite Hfalsy in Hgen.
    eexists; exists l. split; [now rewrite Get_object, Hs|].
    split; [exact Hgen|]. split; [reflexivity | exact Hrender].
  - rewrite Hstr in Hgen.
    cbn [ToBoolean json_truthy ToPropertyKey ToString bind] in Hgen.
    destruct (lookup ASSET_LIBRARY (c :: k)) as [src|] eqn:Hl.
    + rewrite (lookup_truthy _ ASSET_LIBRARY_urls _ _ Hl) in Hgen.
      eexists; exists l. split; [now rewrite Get_object, Hs|].
      split; [exact Hgen|]. split; [reflexivity|].
      intros store. exists [Model src (dec 25 (-1))], store.
      unfold GeneratedObject; cbn [modelUrl].
      rewrite (lookup_truthy _ ASSET_LIBRARY_urls _ _ Hl). now split.
    + cbn [member_truthy] in Hgen.
      eexists; exists l. split; [now rewrite Get_object, Hs|].
      split; [exact Hgen|]. split; [reflexivity | exact Hrender].
Qed.

End Responses.

(** ** More of the renderer: failures, textures, the store *)

Section Failures.
Import GeneratedObject Scene.

(** A conversion to a string throws nothing but a [TypeError]. *)
Lemma ToString_throws (j : json) (e : exception) :
  ToString j = Throw e -> e = TypeError.
Proof.
  revert j e. fix IH 1. intros [| [|] | x | k | l | props] e; simpl;
    try discriminate.
  - generalize true as first. revert e.
    induction l as [|x rest IHrest]; intros e first; [discriminate|].
    simpl.
    assert (Hx : forall e',
               match x with JNull => Normal [] | _ => ToString x end = Throw e' ->
               e' = TypeError).
    { intros e' H. apply (IH x). destruct x; try exact H; discriminate H. }
    destruct (match x with JNull => Normal [] | _ => ToString x end);
      cbn [bind]; [|intros [= <-]; now apply Hx].
    match goal with
    | |- context [bind ?c _] => destruct c eqn:Ej
    end; cbn [bind]; [discriminate|].
    intros [= <-]. eapply IHrest. exact Ej.
  - destruct (own_property props (str "toString")); [|discriminate].
    now intros [= <-].
Qed.

Lemma ToPropertyKey_throws (v : value) (e : exception) :
  ToPropertyKey v = Throw e -> e = TypeError.
Proof. destruct v; [apply ToString_throws | discriminate]. Qed.

Lemma triple_absent (v : value) :
  present v = false -> triple v = Throw TypeError.
Proof. destruct v as [[| | | | |]|]; try discriminate; reflexivity. Qed.

Lemma ShapeMaterial_outcome (props : list (jsstring * json)) (s : texture_store) :
  if convertible (own_property props (str "texture"))
  then exists m s', ShapeMaterial (JObj props) s = (Normal m, s')
  else ShapeMaterial (JObj props) s = (Throw TypeError, s).
Proof.
  unfold ShapeMaterial, seq, lift, convertible. rewrite !Get_object.
  destruct (ToBoolean (own_property props (str "texture"))); cbn [negb orb];
    [|eexists; eexists; reflexivity].
  destruct (ToPropertyKey (own_property props (str "texture"))) as [key|e] eqn:Ek.
  - destruct (lookup TEXTURE_MAP key) as [url|]; [|eexists; eexists; reflexivity].
    destruct (member_truthy (Some url)); [|eexists; eexists; reflexivity].
    destruct (TexturedMaterial_spec url (own_property props (str "color"))
                (default (own_property props (str "metalness")) (dec 3 (-1)))
                (default (own_property props (str "roughness")) (dec 5 (-1))) s)
      as (s' & -> & _).
    eexists; eexists; reflexivity.
  - now rewrite (ToPropertyKey_throws _ _ Ek).
Qed.

Lemma ShapeRenderer_outcome (shape : json) (s : texture_store) :
  if renderable shape
  then exists r s', ShapeRenderer shape s = (Normal r, s')
  else ShapeRenderer shape s = (Throw TypeError, s).
Proof.
  destruct shape as [| b | x | k | l | props]; try reflexivity.
  unfold renderable, ShapeRenderer, seq, lift. rewrite !Get_object.
  destruct (present (own_property props (str "position"))) eqn:Hp; cbn [andb];
    [|now rewrite (triple_absent _ Hp)].
  destruct (triple_present _ Hp) as [pos ->].
  destruct (present (own_property props (str "rotation"))) eqn:Hr; cbn [andb];
    [|now rewrite (triple_absent _ Hr)].
  destruct (triple_present _ Hr) as [rot ->].
  destruct (present (own_property props (str "scale"))) eqn:Hs; cbn [andb];
    [|now rewrite (triple_absent _ Hs)].
  destruct (triple_present _ Hs) as [scl ->].
  destruct (select (own_property props (str "type"))) as [[g a]|];
    [|eexists; eexists; reflexivity].
  pose proof (ShapeMaterial_outcome props s) as Hm.
  destruct (convertible (own_property props (str "texture"))).
  - destruct Hm as (m & s' & ->). eexists; eexists; reflexivity.
  - now rewrite Hm.
Qed.

Lemma render_shapes_outcome (l : list json) (s : texture_store) :
  if forallb renderable l
  then exists nodes s', render_shapes l s = (Normal nodes, s')
  else exists s', render_shapes l s = (Throw TypeError, s').
Proof.
  revert s. induction l as [|shape rest IH]; intros s.
  - exists [], s. reflexivity.
  - rewrite render_shapes_cons. cbn [forallb].
    pose proof (ShapeRenderer_outcome shape s) as Hshape.
    destruct (renderable shape); cbn [andb].
    + destruct Hshape as (r & s1 & ->). specialize (IH s1).
      destruct (forallb renderable rest).
      * destruct IH as (nodes & s2 & ->). eexists; eexists; reflexivity.
      * destruct IH as (s2 & ->). now exists s2.
    + rewrite Hshape. now exists s.
Qed.

(** X12: rendering gets through exactly the scenes that have a truthy model
    URL or an array of shapes in which every entry is an object with its
    three vectors and, where its kind is one of the six, a texture that
    can be looked up.  On every other scene it throws a [TypeError]. *)
Theorem rendering_fails_exactly_on_unreadable_scenes
    (data : GeneratedModelData) (store : texture_store) :
  if scene_renderable data
  then exists nodes, fst (GeneratedObject data store) = Normal nodes
  else fst (GeneratedObject data store) = Throw TypeError.
Proof.
  unfold scene_renderable, GeneratedObject.
  assert (Hmap : if match shapes data with
                    | JArr l => forallb renderable l
                    | _ => false
                    end
                 then exists nodes, fst (map_shapes data store) = Normal nodes
                 else fst (map_shapes data store) = Throw TypeError).
  { unfold map_shapes. destruct (shapes data) as [| | | |l|]; try reflexivity.
    pose proof (render_shapes_outcome l store) as H.
    destruct (forallb renderable l).
    - destruct H as (nodes & s' & ->). now exists nodes.
    - destruct H as (s' & ->). reflexivity. }
  destruct (modelUrl data) as [src|]; cbn [member_truthy orb]; [|exact Hmap].
  destruct src as [[|c url]|name]; cbn [orb]; try exact Hmap;
    eexists; reflexivity.
Qed.

End Failures.

(** ** Vectors that are short, zero or missing *)

Section Degenerate.
Import GeneratedObject Scene.

Lemma render_shapes_app (l1 l2 : list json) (s : texture_store) :
  render_shapes (l1 ++ l2) s
  = match render_shapes l1 s with
    | (Normal n1, s1) =>
        match render_shapes l2 s1 with
        | (Normal n2, s2) => (Normal (n1 ++ n2), s2)
        | (Throw e, s2) => (Throw e, s2)
        end
    | (Throw e, s1) => (Throw e, s1)
    end.
Proof.
  revert s. induction l1 as [|shape l1 IH]; intros s.
  - cbn [app]. change (render_shapes [] s) with (Normal (@nil node), s).
    cbn [app]. destruct (render_shapes l2 s) as [[n2|e] s2]; reflexivity.
  - rewrite <- app_comm_cons, !render_shapes_cons.
    destruct (ShapeRenderer shape s) as [[r|e] s1]; [|reflexivity].
    rewrite IH. destruct (render_shapes l1 s1) as [[n1|e] s2]; [|reflexivity].
    destruct (render_shapes l2 s2) as [[n2|e] s3]; [|reflexivity].
    destruct r; reflexivity.
Qed.

(** An entry that lacks one of its vectors is not renderable, and neither
    is a list that holds it. *)
Lemma absent_vector_unrenderable (entry : list (jsstring * json)) :
  present (own_property entry (str "position"))
  && present (own_property entry (str "rotation"))
  && present (own_property entry (str "scale")) = false ->
  renderable (JObj entry) = false
  /\ forall before after,
       forallb renderable (before ++ JObj entry :: after) = false.
Proof.
  intros H.
  assert (Hr : renderable (JObj entry) = false)
    by (unfold renderable; now rewrite H).
  split; [exact Hr|]. intros before after.
  rewrite forallb_app. cbn [forallb]. rewrite Hr.
  now rewrite andb_false_r.
Qed.

Variables (props : list (jsstring * json)) (kind : string).

Hypothesis known_kind : In kind ShapeType.
Hypothesis has_type : own_property props (str "type") = Some (JStr (str kind)).
Hypothesis has_plain_texture :
  plain_texture (own_property props (str "texture")) = true.

Lemma degenerate_valid_kind : valid_kind (JObj props) = true.
Proof.
  unfold valid_kind; simpl. rewrite has_type.
  pose proof known_kind as Hkind. unfold ShapeType in Hkind; simpl in Hkind.
  repeat destruct Hkind as [E|Hkind]; try contradiction;
    rewrite <- E; reflexivity.
Qed.

(** The mesh of an entry whose three vectors are arrays. *)
Lemma degenerate_mesh (p r sc : list json) (store : texture_store) :
  own_property props (str "position") = Some (JArr p) ->
  own_property props (str "rotation") = Some (JArr r) ->
  own_property props (str "scale") = Some (JArr sc) ->
  exists m store',
    ShapeRenderer (JObj props) store = (Normal (Some m), store')
    /\ primitive_name (geometry m) = kind
    /\ position m = components p
    /\ rotation m = components r
    /\ scale m = components sc.
Proof.
  intros has_position has_rotation has_scale.
  assert (Hentry : shape_entry (JObj props) = true).
  { simpl. now rewrite has_position, has_rotation, has_scale, has_plain_texture. }
  pose proof degenerate_valid_kind as Hvalid.
  destruct (ShapeRenderer_spec props store Hentry) as (res & s' & Hres & _ & Hcase).
  destruct res as [m|]; [|destruct Hcase; congruence].
  destruct Hcase as (_ & Hk & Hpos & Hrot & Hscl & _).
  exists m, s'. split; [exact Hres|].
  rewrite has_position, triple_array in Hpos.
  rewrite has_rotation, triple_array in Hrot.
  rewrite has_scale, triple_array in Hscl.
  simpl in Hk. rewrite has_type in Hk.
  repeat split; try congruence.
  pose proof known_kind as Hkind. unfold ShapeType in Hkind; simpl in Hkind.
  repeat destruct Hkind as [E|Hkind]; try contradiction;
    rewrite <- E in *;
    destruct (geometry m); try reflexivity; discriminate Hk.
Qed.

(** C9 (amended): a shape of one of the six kinds whose position, rotation
    and scale are arrays of any length and any content, a zero scale
    included, renders to a mesh of its kind: a missing component is
    [undefined] in the mesh, a zero stays a zero, and nothing is thrown.  In
    a scene of shape entries that mesh is a node of the rendering, in the
    entry's place between the nodes of the entries before it and those of
    the entries after it.  A vector that is missing altogether, or [null],
    is not tolerated: the entry throws a [TypeError] and leaves the store,
    and every scene that holds it throws with it. *)
Theorem degenerate_vectors_render :
  (forall p r sc,
      own_property props (str "position") = Some (JArr p) ->
      own_property props (str "rotation") = Some (JArr r) ->
      own_property props (str "scale") = Some (JArr sc) ->
      (forall store,
          exists m store',
            ShapeRenderer (JObj props) store = (Normal (Some m), store')
            /\ primitive_name (geometry m) = kind
            /\ position m = components p
            /\ rotation m = components r
            /\ scale m = components sc)
      /\ (forall before after url store,
             member_truthy url = false ->
             Forall (fun shape => shape_entry shape = true) before ->
             Forall (fun shape => shape_entry shape = true) after ->
             exists nodes_before m nodes_after store',
               GeneratedObject
                 {| shapes := JArr (before ++ JObj props :: after);
                    modelUrl := url |} store
               = (Normal (nodes_before ++ Mesh m :: nodes_after), store')
               /\ Forall2 renders (filter valid_kind before) nodes_before
               /\ Forall2 renders (filter valid_kind after) nodes_after
               /\ primitive_name (geometry m) = kind
               /\ position m = components p
               /\ rotation m = components r
               /\ scale m = components sc))
  /\ (present (own_property props (str "position"))
      && present (own_property props (str "rotation"))
      && present (own_property props (str "scale")) = false ->
      (forall store,
          ShapeRenderer (JObj props) store = (Throw TypeError, store))
      /\ (forall before after url store,
             member_truthy url = false ->
             fst (GeneratedObject
                    {| shapes := JArr (before ++ JObj props :: after);
                       modelUrl := url |} store)
             = Throw TypeError)).
Proof.
  split.
  - intros p r sc Hp Hr Hsc. split.
    + intros store. exact (degenerate_mesh p r sc store Hp Hr Hsc).
    + intros before after url store Hurl Hb Ha.
      rewrite (GeneratedObject_shapes _ _ Hurl), render_shapes_app.
      destruct (render_shapes_spec before store Hb) as (nb & s1 & -> & Hnb).
      rewrite render_shapes_cons.
      destruct (degenerate_mesh p r sc s1 Hp Hr Hsc)
        as (m & s2 & -> & Hk & Hpos & Hrot & Hscl).
      destruct (render_shapes_spec after s2 Ha) as (na & s3 & -> & Hna).
      exists nb, m, na, s3. repeat split; assumption.
  - intros Habsent.
    destruct (absent_vector_unrenderable props Habsent) as [Hr Hall]. split.
    + intros store. pose proof (ShapeRenderer_outcome (JObj props) store) as H.
      now rewrite Hr in H.
    + intros before after url store Hurl.
      rewrite (GeneratedObject_shapes _ _ Hurl).
      pose proof (render_shapes_outcome (before ++ JObj props :: after) store) as H.
      rewrite Hall in H. destruct H as (s' & ->). reflexivity.
Qed.

End Degenerate.

Section DegenerateSamples.
Import GeneratedObject Scene.

(** C9 (as worded): a missing scale is not tolerated.  A box that has no
    scale, set between two red cubes, throws, and the scene is not
    rendered. *)
Lemma missing_scale_aborts_scene : ~ Scene.tolerates_missing_scale.
Proof.
  intros H.
  assert (Hcubes : Forall (fun shape => shape_entry shape = true)
                     (Samples.entries Samples.red_cube_text))
    by (vm_compute; repeat constructor).
  destruct (H (Samples.properties (Samples.parsed_of Samples.unscaled_box_text))
              (Samples.entries Samples.red_cube_text)
              (Samples.entries Samples.red_cube_text) []
              eq_refl eq_refl eq_refl eq_refl eq_refl Hcubes Hcubes)
    as [_ (nodes & store' & Hscene)].
  vm_compute in Hscene. discriminate Hscene.
Qed.

(** A cone of zero scale, with two components of position and none of
    rotation, becomes a mesh, alone and between two red cubes; the box
    without a scale throws, alone and between them. *)
Lemma degenerate_vectors_render_witness :
  ((exists m store',
         ShapeRenderer
           (JObj (Samples.properties (Samples.parsed_of Samples.flat_cone_text)))
           []
         = (Normal (Some m), store')
         /\ primitive_name (geometry m) = "cone"%string
         /\ position m = (Some (JNum (dec 0 0)), Some (JNum (dec 1 0)), None)
         /\ rotation m = (None, None, None)
         /\ scale m = (Some (JNum (dec 0 0)), Some (JNum (dec 0 0)),
                       Some (JNum (dec 0 0))))
   /\ (exists nodes_before m nodes_after store',
          GeneratedObject
            {| shapes :=
                 JArr (Samples.entries Samples.red_cube_text
                       ++ JObj (Samples.properties
                                  (Samples.parsed_of Samples.flat_cone_text))
                       :: Samples.entries Samples.red_cube_text);
               modelUrl := None |} []
          = (Normal (nodes_before ++ Mesh m :: nodes_after), store')
          /\ Forall2 renders
               (filter valid_kind (Samples.entries Samples.red_cube_text))
               nodes_before
          /\ Forall2 renders
               (filter valid_kind (Samples.entries Samples.red_cube_text))
               nodes_after
          /\ primitive_name (geometry m) = "cone"%string
          /\ position m = (Some (JNum (dec 0 0)), Some (JNum (dec 1 0)), None)
          /\ rotation m = (None, None, None)
          /\ scale m = (Some (JNum (dec 0 0)), Some (JNum (dec 0 0)),
                        Some (JNum (dec 0 0)))))
  /\ (ShapeRenderer
         (JObj (Samples.properties (Samples.parsed_of Samples.unscaled_box_text)))
         []
       = (Throw TypeError, [])
      /\ fst (GeneratedObject
                {| shapes :=
                     JArr (Samples.entries Samples.red_cube_text
                           ++ JObj (Samples.properties
                                      (Samples.parsed_of Samples.unscaled_box_text))
                           :: Samples.entries Samples.red_cube_text);
                   modelUrl := None |} [])
         = Throw TypeError).
Proof.
  assert (Hcubes : Forall (fun shape => shape_entry shape = true)
                     (Samples.entries Samples.red_cube_text))
    by (vm_compute; repeat constructor).
  split.
  - destruct (proj1 (degenerate_vectors_render
                       (Samples.properties (Samples.parsed_of Samples.flat_cone_text))
                       "cone"%string
                       (or_intror (or_intror (or_intror (or_introl eq_refl))))
                       eq_refl eq_refl)
                [JNum (dec 0 0); JNum (dec 1 0)] []
                [JNum (dec 0 0); JNum (dec 0 0); JNum (dec 0 0)]
                eq_refl eq_refl eq_refl)
      as [Hmesh Hscene].
    split; [exact (Hmesh [])|].
    exact (Hscene _ _ None [] eq_refl Hcubes Hcubes).
  - destruct (proj2 (degenerate_vectors_render
                       (Samples.properties (Samples.parsed_of Samples.unscaled_box_text))
                       "box"%string (or_introl eq_refl) eq_refl eq_refl)
                eq_refl)
      as [Hentry Hscene].
    split; [exact (Hentry [])|].
    exact (Hscene _ _ None [] eq_refl).
Defined.

End DegenerateSamples.

Section Stores.
Import geminiService GeneratedObject Scene.

Lemma ShapeMaterial_untextured (props : list (jsstring * json)) (s : texture_store) :
  plain_texture (own_property props (str "texture")) = true ->
  chosen_texture (own_property props (str "texture")) = None ->
  ShapeMaterial (JObj props) s
  = (Normal {| map := None;
               color := own_property props (str "color");
               metalness := default (own_property props (str "metalness")) (dec 3 (-1));
               roughness := default (own_property props (str "roughness")) (dec 5 (-1)) |},
     s).
Proof.
  intros Hplain Hnone.
  unfold ShapeMaterial, seq, lift. rewrite !Get_object.
  destruct (own_property props (str "texture")) as [[| | | k | |]|];
    try discriminate Hplain; try reflexivity.
  destruct k as [|c k]; [reflexivity|].
  cbn [ToBoolean json_truthy ToPropertyKey ToString chosen_texture] in *.
  now rewrite Hnone.
Qed.

(** X13: apart from the member names of [Object.prototype], a texture field
    selects a texture exactly when it is, letter for letter, one of the six
    keys of the texture table, and then that key's URL; any other string,
    an empty one, [null] or none gives the untextured material with the
    same colour, metalness and roughness, and the store is not touched. *)
Theorem texture_applied_exactly_for_table_keys
    (props : list (jsstring * json)) (store : texture_store) :
  plain_texture (own_property props (str "texture")) = true ->
  (forall k, own_property props (str "texture") = Some (JStr k) ->
             is_key Object_prototype k = false) ->
  exists m store',
    ShapeMaterial (JObj props) store = (Normal m, store')
    /\ color m = own_property props (str "color")
    /\ metalness m = default (own_property props (str "metalness")) (dec 3 (-1))
    /\ roughness m = default (own_property props (str "roughness")) (dec 5 (-1))
    /\ ((exists name url,
            In (name, url) TEXTURE_MAP
            /\ own_property props (str "texture") = Some (JStr (str name))
            /\ map m = Some (Own (str url)))
        \/ ((forall name, In name texture_names ->
                          own_property props (str "texture") <> Some (JStr (str name)))
            /\ map m = None
            /\ store' = store)).
Proof.
  intros Hplain Hproto.
  destruct (chosen_texture (own_property props (str "texture")))
    as [[url|name]|] eqn:Hc.
  - destruct (ShapeMaterial_spec props store Hplain)
      as (m & s' & Hm & Hcol & Hmet & Hrough & Hmap & _).
    exists m, s'. repeat (split; [assumption|]).
    rewrite Hc in Hmap.
    left. apply chosen_texture_own in Hc as (name & u & Hin & Hv & ->).
    exists name, u. repeat split; assumption.
  - apply chosen_texture_inherited in Hc as [Hv Hk].
    rewrite (Hproto _ Hv) in Hk. discriminate.
  - rewrite (ShapeMaterial_untextured _ _ Hplain Hc).
    eexists; eexists. split; [reflexivity|]. repeat (split; [reflexivity|]).
    right. split; [|split; reflexivity].
    intros name Hname Hv.
    rewrite texture_names_are_keys in Hname.
    apply in_map_iff in Hname as ([n u] & <- & Hin).
    assert (Hown : chosen_texture (own_property props (str "texture"))
                   = Some (Own (str u))).
    { apply chosen_texture_own. now exists n, u. }
    congruence.
Qed.

(** *** What a rendering does to the store *)

Lemma modify_fixed (url : member) (f : Texture -> Texture) (s : texture_store) (t : Texture) :
  texture_of s url = Some t -> f t = t -> modify url f s = s.
Proof.
  intros Ht Hf. induction s as [|[u t'] s IH]; simpl in *; [reflexivity|].
  destruct (member_eqb u url).
  - injection Ht as ->. now rewrite Hf.
  - now rewrite IH.
Qed.

(** *** Textures that a scene does not use *)

Lemma TexturedMaterial_frame (url : member) (c : value) (m r : json)
    (s : texture_store) (u : member) :
  u <> url ->
  texture_of (snd (TexturedMaterial url c m r s)) u = texture_of s u.
Proof.
  intros Hne.
  assert (Hneq : member_eqb url u = false).
  { destruct (member_eqb url u) eqn:E; [|reflexivity].
    apply member_eqb_eq in E. congruence. }
  unfold TexturedMaterial, seq, useTexture, assign, ret.
  destruct (texture_of s url); cbn [snd];
    rewrite !texture_of_modify, Hneq; [reflexivity|].
  rewrite texture_of_app. destruct (texture_of s u); [reflexivity|].
  simpl. now rewrite Hneq.
Qed.

Lemma member_eq_dec (a b : member) : a = b \/ a <> b.
Proof.
  destruct (member_eqb a b) eqn:E.
  - left. now apply member_eqb_eq.
  - right. intros ->. rewrite member_eqb_refl in E. discriminate.
Qed.

Lemma ShapeMaterial_frame (shape : json) (s : texture_store) (u : member) :
  texture_of (snd (ShapeMaterial shape s)) u = texture_of s u
  \/ exists m, fst (ShapeMaterial shape s) = Normal m /\ In u (material_refs m).
Proof.
  unfold ShapeMaterial, seq, lift.
  destruct (Get (Some shape) "color") as [c|]; [|now left].
  destruct (Get (Some shape) "metalness") as [mt|]; [|now left].
  destruct (Get (Some shape) "roughness") as [rg|]; [|now left].
  destruct (Get (Some shape) "texture") as [tx|]; [|now left].
  destruct (ToBoolean tx); [|now left].
  destruct (ToPropertyKey tx) as [key|]; [|now left].
  destruct (lookup TEXTURE_MAP key) as [url|]; [|now left].
  destruct (member_truthy (Some url)); [|now left].
  destruct (member_eq_dec u url) as [->|Hne].
  - right.
    destruct (TexturedMaterial_spec url c (default mt (dec 3 (-1)))
                (default rg (dec 5 (-1))) s) as (s' & -> & _).
    eexists; split; [reflexivity | now left].
  - left. now apply TexturedMaterial_frame.
Qed.

Lemma ShapeRenderer_frame (shape : json) (s : texture_store) (u : member) :
  texture_of (snd (ShapeRenderer shape s)) u = texture_of s u
  \/ exists r, fst (ShapeRenderer shape s) = Normal r /\ In u (mesh_refs r).
Proof.
  unfold ShapeRenderer, seq, lift.
  destruct (Get (Some shape) "type") as [ty|]; [|now left].
  destruct (Get (Some shape) "position") as [po|]; [|now left].
  destruct (Get (Some shape) "rotation") as [ro|]; [|now left].
  destruct (Get (Some shape) "scale") as [sc|]; [|now left].
  destruct (triple po) as [pos|]; [|now left].
  destruct (triple ro) as [rot|]; [|now left].
  destruct (triple sc) as [scl|]; [|now left].
  destruct (select ty) as [[g ctor]|]; [|now left].
  destruct (ShapeMaterial_frame shape s u) as [Hsame | (m & Hm & Hin)].
  - left. now destruct (ShapeMaterial shape s) as [[m|e] s'].
  - right. destruct (ShapeMaterial shape s) as [[m'|e] s']; [|discriminate].
    injection Hm as ->. eexists; split; [reflexivity | exact Hin].
Qed.

Lemma render_shapes_frame (l : list json) (s : texture_store)
    (nodes : list node) (u : member) :
  fst (render_shapes l s) = Normal nodes ->
  ~ In u (nodes_refs nodes) ->
  texture_of (snd (render_shapes l s)) u = texture_of s u.
Proof.
  revert s nodes. induction l as [|shape rest IH]; intros s nodes; [reflexivity|].
  rewrite render_shapes_cons.
  pose proof (ShapeRenderer_frame shape s u) as Hshape.
  destruct (ShapeRenderer shape s) as [[r|e] s1]; [|discriminate].
  specialize (IH s1).
  destruct (render_shapes rest s1) as [[nodes'|e] s2]; [|discriminate].
  cbn [fst snd] in *. intros [= <-] Hnot.
  assert (Hrest : ~ In u (nodes_refs nodes') /\ ~ In u (mesh_refs r)).
  { destruct r as [m|]; [|split; [exact Hnot | intros []]].
    unfold nodes_refs in Hnot; simpl in Hnot.
    split; intros H; apply Hnot, in_or_app; [now right | now left]. }
  destruct Hrest as [Hnodes Hmesh].
  rewrite (IH nodes' eq_refl Hnodes).
  destruct Hshape as [Hsame | (r' & [= <-] & Hin)]; [exact Hsame | contradiction].
Qed.

(** X14: a rendering alters no texture but those its nodes refer to: the
    parameters of every other texture in the store are what they were. *)
Theorem unreferenced_textures_untouched
    (data : GeneratedModelData) (store : texture_store)
    (nodes : list node) (u : member) :
  fst (GeneratedObject data store) = Normal nodes ->
  ~ In u (nodes_refs nodes) ->
  texture_of (snd (GeneratedObject data store)) u = texture_of store u.
Proof.
  unfold GeneratedObject, map_shapes.
  destruct (modelUrl data) as [src|];
    [destruct (member_truthy (Some src)); [reflexivity|]|];
    destruct (shapes data); try reflexivity; apply render_shapes_frame.
Qed.

(** *** Rendering again *)

Lemma settled_ret {A} (a : A) : settled (ret a).
Proof. now intros s s' _. Qed.

Lemma settled_lift {A} (x : completion A) : settled (lift x).
Proof. now intros s s' _. Qed.

Lemma settled_lift_seq {A B} (x : completion A) (k : A -> Render B) :
  (forall a, settled (k a)) -> settled (seq (lift x) k).
Proof.
  intros Hk s s'. unfold seq, lift. destruct x as [a|e]; [apply Hk | reflexivity].
Qed.

Lemma settled_seq {A B} (refsA : A -> list member) (refsB : B -> list member)
    (c : Render A) (k : A -> Render B) :
  steady refsA c -> settled c ->
  (forall a, steady refsB (k a)) -> (forall a, settled (k a)) ->
  settled (seq c k).
Proof.
  intros (Hfst & _ & _) Hc Hks Hk s s' Hkeep. unfold seq in *.
  specialize (Hfst s s'). specialize (Hc s s').
  destruct (c s) as [[a|e] s1]; cbn [fst snd] in *.
  - destruct (Hks a) as (_ & Hkeeps & _).
    assert (Hs1 : keeps_tiled s1 s')
      by (eapply keeps_tiled_trans; [apply Hkeeps | exact Hkeep]).
    specialize (Hc Hs1).
    destruct (c s') as [[a'|e'] s1']; cbn [fst snd] in *; [|discriminate].
    injection Hfst as <-. subst s1'. exact (Hk a s1 s' Hkeep).
  - specialize (Hc Hkeep).
    destruct (c s') as [[a'|e'] s1']; cbn [fst snd] in *; [discriminate|].
    exact Hc.
Qed.

Lemma settled_TexturedMaterial (url : member) (c : value) (m r : json) :
  settled (TexturedMaterial url c m r).
Proof.
  intros s s' Hkeep.
  destruct (TexturedMaterial_spec url c m r s) as (s1 & E & Ht & _).
  rewrite E in Hkeep; cbn [snd] in Hkeep. specialize (Hkeep url Ht).
  unfold TexturedMaterial, seq, useTexture, assign, ret. rewrite Hkeep.
  cbn [snd]. now rewrite !(modify_fixed url _ s' tiled Hkeep eq_refl).
Qed.

Lemma settled_ShapeMaterial (shape : json) : settled (ShapeMaterial shape).
Proof.
  unfold ShapeMaterial.
  repeat (apply settled_lift_seq; intros ?).
  destruct (ToBoolean _); [|apply settled_ret].
  apply settled_lift_seq; intros key.
  destruct (lookup TEXTURE_MAP key) as [url|]; [|apply settled_ret].
  destruct (member_truthy (Some url));
    [apply settled_TexturedMaterial | apply settled_ret].
Qed.

Lemma settled_ShapeRenderer (shape : json) : settled (ShapeRenderer shape).
Proof.
  unfold ShapeRenderer.
  repeat (apply settled_lift_seq; intros ?).
  destruct (select _) as [[g ctor]|]; [|apply settled_ret].
  apply (settled_seq material_refs (fun _ => []));
    [apply steady_ShapeMaterial | apply settled_ShapeMaterial | |];
    intros content; [now apply steady_ret | apply settled_ret].
Qed.

Lemma settled_render_shapes (l : list json) : settled (render_shapes l).
Proof.
  induction l as [|shape rest IH]; [apply settled_ret|].
  cbn [render_shapes].
  apply (settled_seq mesh_refs (fun _ => []));
    [apply steady_ShapeRenderer | apply settled_ShapeRenderer | |]; intros r.
  - eapply steady_seq; [apply render_shapes_independent|].
    intros nodes. now apply steady_ret.
  - apply (settled_seq (fun _ => []) (fun _ => []));
      [apply render_shapes_independent | exact IH | |]; intros nodes;
      [now apply steady_ret | apply settled_ret].
Qed.

(** X15: rendering a scene a second time leaves the texture store exactly as
    the first rendering left it: a re-render loads nothing and changes
    nothing. *)
Theorem rerender_leaves_store (data : GeneratedModelData) (store : texture_store) :
  snd (GeneratedObject data (snd (GeneratedObject data store)))
  = snd (GeneratedObject data store).
Proof.
  assert (H : settled (GeneratedObject data)).
  { unfold GeneratedObject, map_shapes.
    destruct (modelUrl data) as [src|];
      [destruct (member_truthy (Some src)); [apply settled_ret|]|];
      destruct (shapes data); try apply settled_lift;
      apply settled_render_shapes. }
  apply (H store), keeps_tiled_refl.
Qed.

End Stores.

(** ** The further properties on samples *)

Section MoreSamples.
Import geminiService GeneratedObject Scene App.

(** Without a key, a typed prompt is answered by the message about the key. *)
Lemma missing_credential_is_reported_witness :
  handleGenerate [] (Samples.answering Samples.red_cube_text) (Samples.typed "a cube")
  = ([], {| prompt := str "a cube"; isARMode := false; loading := false;
            modelData := None;
            error := Some (str "API Key is missing. Please set REACT_APP_API_KEY or check your environment.") |}).
Proof.
  apply (missing_credential_is_reported
           (Samples.answering Samples.red_cube_text) (Samples.typed "a cube")).
  discriminate.
Defined.

(** The red cube takes the place of the demo model. *)
Lemma successful_generation_replaces_scene_witness :
  let s := mount (Samples.typed "a small red cube") in
  let result := {| shapes := JArr (Samples.entries Samples.red_cube_text);
                   modelUrl := None |} in
  modelData s = Some demo
  /\ snd (handleGenerate Samples.key (Samples.answering Samples.red_cube_text) s)
     = {| prompt := str "a small red cube"; isARMode := false; loading := false;
          modelData := Some result; error := None |}.
Proof.
  intros s result. split; [reflexivity|].
  apply (successful_generation_replaces_scene Samples.key
           (Samples.answering Samples.red_cube_text) s result).
  - discriminate.
  - vm_compute; reflexivity.
Defined.

(** The JSON value [null] is shown as the fixed failure message. *)
Lemma failed_generation_shows_fixed_message_witness :
  let s := mount (Samples.typed "nothing") in
  let ai := Samples.answering (str "null") in
  exists m,
    (m = str "API Key is missing. Please set REACT_APP_API_KEY or check your environment."
     \/ m = str "Failed to generate 3D model data.")
    /\ snd (handleGenerate Samples.key ai s)
       = {| prompt := prompt s; isARMode := isARMode s; loading := false;
            modelData := modelData s; error := Some m |}
    /\ banner (snd (handleGenerate Samples.key ai s)) = Some m.
Proof.
  intros s ai.
  apply (failed_generation_shows_fixed_message Samples.key ai s failed).
  - discriminate.
  - vm_compute; reflexivity.
Defined.

(** While a generation is loading, a click does nothing and Enter sends. *)
Lemma enter_key_is_not_guarded_by_loading_witness :
  let s := setLoading true (Samples.typed "a tree") in
  let ai := Samples.answering Samples.red_cube_text in
  dispatch Samples.key ai ClickGenerate s = ([], s)
  /\ fst (dispatch Samples.key ai (KeyDown (str "Enter")) s)
     = [request_for (str "a tree")].
Proof.
  intros s ai.
  apply (proj1 (enter_key_is_not_guarded_by_loading Samples.key ai s
                  key_present ltac:(discriminate))).
  reflexivity.
Defined.

(** The duck that the generator names is rendered alone. *)
Lemma generated_model_is_rendered_alone_witness :
  GeneratedObject
    {| shapes := or_empty (Samples.field Samples.duck_and_cube_text "shapes");
       modelUrl := Some (Own Samples.duck_url) |} Samples.foreign_store
  = (Normal [Model (Own Samples.duck_url) (dec 25 (-1))], Samples.foreign_store).
Proof.
  apply (proj1 (generated_model_is_rendered_alone Samples.key
                  (Samples.answering Samples.duck_and_cube_text)
                  (str "a rubber duck")
                  {| shapes := or_empty (Samples.field Samples.duck_and_cube_text "shapes");
                     modelUrl := Some (Own Samples.duck_url) |}
                  (Own Samples.duck_url)
                  ltac:(vm_compute; reflexivity) eq_refl)).
Defined.

(** The response [42] is the empty scene. *)
Lemma response_without_shapes_is_empty_scene_witness :
  snd (generate3DStructure Samples.key
         (Samples.answering Samples.number_text) (str "a number"))
  = Normal {| shapes := JArr []; modelUrl := None |}
  /\ forall store,
       GeneratedObject {| shapes := JArr []; modelUrl := None |} store
       = (Normal [], store).
Proof.
  apply (proj2 (response_without_shapes_is_empty_scene Samples.key
                  (Samples.answering Samples.number_text) (str "a number")
                  Samples.number_text (Samples.parsed_of Samples.number_text)
                  key_present eq_refl ltac:(vm_compute; reflexivity))
           None None);
    reflexivity.
Defined.

(** The response whose shapes is the string [cube] is returned and cannot
    be rendered. *)
Lemma non_array_shapes_break_rendering_witness :
  snd (generate3DStructure Samples.key
         (Samples.answering Samples.string_shapes_text) (str "a cube"))
  = Normal {| shapes := JStr (str "cube"); modelUrl := None |}
  /\ forall store,
       GeneratedObject {| shapes := JStr (str "cube"); modelUrl := None |} store
       = (Throw TypeError, store).
Proof.
  apply (non_array_shapes_break_rendering Samples.key
           (Samples.answering Samples.string_shapes_text) (str "a cube")
           Samples.string_shapes_text
           (Samples.parsed_of Samples.string_shapes_text)
           key_present eq_refl ltac:(vm_compute; reflexivity)
           (JStr (str "cube")) None).
  - vm_compute; reflexivity.
  - vm_compute; reflexivity.
  - reflexivity.
  - discriminate.
  - reflexivity.
Defined.

(** The wooden sphere and the box are returned and rendered. *)
Lemma schema_conforming_response_renders_witness :
  exists result l,
    Get (Some (Samples.parsed_of Samples.conforming_text)) "shapes"
    = Normal (Some (JArr l))
    /\ snd (generate3DStructure Samples.key
              (Samples.answering Samples.conforming_text) (str "a ball on a plate"))
       = Normal result
    /\ shapes result = JArr l
    /\ forall store,
         exists nodes store',
           GeneratedObject result store = (Normal nodes, store')
           /\ match modelUrl result with
              | Some src => nodes = [Model src (dec 25 (-1))]
              | None => Forall2 renders l nodes
              end.
Proof.
  apply (schema_conforming_response_renders Samples.key
           (Samples.answering Samples.conforming_text) (str "a ball on a plate")
           Samples.conforming_text (Samples.parsed_of Samples.conforming_text)
           key_present eq_refl).
  - vm_compute; reflexivity.
  - vm_compute; reflexivity.
Defined.

(** [Wood] with a capital letter is not the key [wood]: no texture. *)
Lemma texture_applied_exactly_for_table_keys_witness :
  exists m store',
    ShapeMaterial (Samples.parsed_of Samples.capital_wood_text) [] = (Normal m, store')
    /\ map m = None.
Proof.
  destruct (texture_applied_exactly_for_table_keys
              (Samples.properties (Samples.parsed_of Samples.capital_wood_text)) [])
    as (m & store' & Hm & _ & _ & _ & Hcase).
  - vm_compute; reflexivity.
  - intros k Hk. vm_compute in Hk. injection Hk as <-. vm_compute; reflexivity.
  - exists m, store'. split; [exact Hm|].
    destruct Hcase as [(name & url & _ & Hname & _) | (_ & Hnone & _)];
      [|exact Hnone].
    vm_compute in Hm. injection Hm as <- _. reflexivity.
Defined.

(** The foreign texture keeps its mirrored wrap through the demo model. *)
Lemma unreferenced_textures_untouched_witness :
  texture_of (snd (GeneratedObject demo Samples.foreign_store))
    (Own (str "https://example.org/grass.png"))
  = texture_of Samples.foreign_store (Own (str "https://example.org/grass.png")).
Proof.
  apply (unreferenced_textures_untouched demo Samples.foreign_store
           match fst (GeneratedObject demo Samples.foreign_store) with
           | Normal nodes => nodes
           | Throw _ => []
           end).
  - vm_compute; reflexivity.
  - vm_compute. intros [H|[H|[]]]; discriminate H.
Defined.

(** The demo model: seven meshes, the first two with the stone and the
    wood of the texture table, all from an empty store. *)
Example demo_model_renders :
  List.map node_map
    match fst (GeneratedObject demo []) with
    | Normal nodes => nodes
    | Throw _ => []
    end
  = [ lookup TEXTURE_MAP (str "stone"); lookup TEXTURE_MAP (str "wood");
      None; None; None; None; None ]
  /\ List.map (fun shape => shape_schema shape)
       match shapes demo with JArr l => l | _ => [] end
     = [ true; true; true; true; true; true; true ]
  /\ displayed (mount initial) = Some (Stage, demo).
Proof. repeat split; vm_compute; reflexivity. Qed.

End MoreSamples.
